(** * pipboy-wristboy: the persistent data store and the item screens

  A shallow embedding of [data_store.py] (class [DataStore]) and of the two
  item screens of [wrist_device.py] that read a single item
  ([ItemDetailScreen.compose], [ItemEditorModal.compose]).

  The persisted document is a Python dictionary. It is embedded as a record
  whose four top-level entries are optional, so that a document read from a
  file that lacks a key can be represented; the entries that are present
  have the shapes of the type hints of the source ([Dict[str, int]],
  [List[Dict[str, Any]]], [Dict[str, Any]]).  Methods are computations in a
  state-and-exception monad over the object ([filepath], [_data]) and its
  environment (the file system and the clock).  A raised exception keeps
  the state reached so far, as an in-place mutation does in Python. *)

From Stdlib Require Import ZArith Ascii String.
From stdpp Require Import base option list gmap strings pretty.

Local Open Scope Z_scope.
Local Open Scope string_scope.

(** ** Python strings and values *)

Module PyStr.

(** [str.lower] as it acts on text that holds only ASCII characters: the
    letters [A]..[Z] are moved to [a]..[z], every other character is kept.
    It serves the concrete stores below, whose names are ASCII; the store
    itself is defined over [str_lower]. *)
Definition lower_ascii (c : ascii) : ascii :=
  let n := nat_of_ascii c in
  if (65 <=? n)%nat && (n <=? 90)%nat then ascii_of_nat (n + 32) else c.

Fixpoint lower (s : string) : string :=
  match s with
  | EmptyString => EmptyString
  | String c s' => String (lower_ascii c) (lower s')
  end.

(** The truth value of a string in an [if]: it is not empty. *)
Definition nonempty (s : string) : bool :=
  match s with EmptyString => false | String _ _ => true end.

End PyStr.

(** [str.lower] and [str.strip] are Python's: they follow the Unicode
    tables of the interpreter ([str.lower] folds [É] as well as [E],
    [str.strip] removes a no-break space as well as a blank).  A name typed
    by the user may hold any character, so the two functions enter as
    parameters and nothing is assumed of them. *)
Class PyString := {
  str_lower : string → string;
  str_strip : string → string
}.

(** A Python float is kept as its [repr], the shortest decimal text that
  reads back as the same float; the store never computes with weights. *)
Inductive pyfloat := Float (repr : string).

(** The values a setting can hold ([Any] restricted to what JSON carries at
  a leaf). *)
Inductive pyvalue :=
| VNone
| VBool (b : bool)
| VInt (z : Z)
| VFloat (f : pyfloat)
| VStr (s : string).

#[global] Instance pyfloat_eq_dec : EqDecision pyfloat.
Proof. solve_decision. Defined.
#[global] Instance pyvalue_eq_dec : EqDecision pyvalue.
Proof. solve_decision. Defined.

Definition float_repr (f : pyfloat) : string := let 'Float r := f in r.

(** Truth value of an object in an [if]. *)
Definition truthy (v : pyvalue) : bool :=
match v with
| VNone => false
| VBool b => b
| VInt z => negb (z =? 0)%Z
| VFloat f =>
    negb (bool_decide (float_repr f = "0.0") || bool_decide (float_repr f = "-0.0"))
| VStr s => PyStr.nonempty s
end.

(** [str(v)], also what an f-string field prints. *)
Definition py_str (v : pyvalue) : string :=
match v with
| VNone => "None"
| VBool true => "True"
| VBool false => "False"
| VInt z => pretty z
| VFloat f => float_repr f
| VStr s => s
end.

(** ** The persisted document *)

Record item := Item {
  i_name : string;
  i_category : string;
  i_quantity : Z;
  i_weight : pyfloat
}.

#[global] Instance item_eq_dec : EqDecision item.
Proof. solve_decision. Defined.

(** An inventory entry seen as the dictionary it is. *)
Definition item_dict (it : item) : gmap string pyvalue :=
<["name" := VStr (i_name it)]>
(<["category" := VStr (i_category it)]>
(<["quantity" := VInt (i_quantity it)]>
(<["weight" := VFloat (i_weight it)]> ∅))).

Record document := Document {
  doc_stats : option (gmap string Z);
  doc_inventory : option (list item);
  doc_settings : option (gmap string pyvalue);
  doc_last_updated : option string
}.

Inductive exn :=
| KeyError
| AttributeError
| IOError
| JSONDecodeError
| UnicodeDecodeError
| RecursionError.

#[global] Instance exn_eq_dec : EqDecision exn.
Proof. solve_decision. Defined.

Inductive result (A : Type) :=
| Ok (a : A)
| Raise (e : exn).
Arguments Ok {A} a.
Arguments Raise {A} e.

(** ** The [json] module

  [json.dump] and [json.load] belong to Python's library, not to the
  repository.  They enter through their contract: a text that [json.dump]
  wrote loads back as the same document, and the empty text of a file
  that was just truncated does not parse.  When the content of a file
  does not load, [json.load(f)] raises: [JSONDecodeError] where the text is
  not JSON (so for the empty text), [UnicodeDecodeError] where the bytes of
  the file are not text in the encoding it is opened with,
  [RecursionError] where the text nests deeper than the interpreter
  allows.  [json_load_raises] is that exception. *)
Class Json := {
  text : Type;
  text_empty : text;
  json_dump : document → text;
  json_load : text → option document;
  json_load_raises : text → exn;
  json_load_dump : ∀ d, json_load (json_dump d) = Some d;
  json_load_empty : json_load text_empty = None;
  json_load_raises_empty : json_load_raises text_empty = JSONDecodeError
}.

Section DataStore.

Context `{J : Json} `{PS : PyString}.

(** ** The object and its environment *)

Inductive node :=
| File (content : text)
| Dir.

Record state := State {
  filepath : string;
  _data : document;
  fs : gmap string node;
  clock : nat
}.

Definition with_data (d : document) (σ : state) : state :=
  State (filepath σ) d (fs σ) (clock σ).
Definition with_fs (f : gmap string node) (σ : state) : state :=
  State (filepath σ) (_data σ) f (clock σ).
Definition with_clock (c : nat) (σ : state) : state :=
  State (filepath σ) (_data σ) (fs σ) c.

(** ** The monad *)

Definition M (A : Type) : Type := state → result A * state.

Definition ret {A} (a : A) : M A := λ σ, (Ok a, σ).
Definition raise {A} (e : exn) : M A := λ σ, (Raise e, σ).
Definition bind {A B} (c : M A) (k : A → M B) : M B :=
  λ σ, match c σ with
       | (Ok a, σ') => k a σ'
       | (Raise e, σ') => (Raise e, σ')
       end.
(** [try: c except (handled): pass] followed by [rest]. *)
Definition try_except {A} (c : M A) (handled : exn → bool) (rest : M A) : M A :=
  λ σ, match c σ with
       | (Ok a, σ') => (Ok a, σ')
       | (Raise e, σ') => if handled e then rest σ' else (Raise e, σ')
       end.

Definition get : M state := λ σ, (Ok σ, σ).
Definition modify (f : state → state) : M unit := λ σ, (Ok tt, f σ).

Definition outcome {A} (r : result A * state) : result A := fst r.
Definition after {A} (r : result A * state) : state := snd r.

Declare Scope py_scope.
Delimit Scope py_scope with py.
Notation "x <- c ;; k" := (bind c (λ x, k))
  (at level 100, c at next level, k at level 200, right associativity) : py_scope.
Notation "c ;; k" := (bind c (λ _, k))
  (at level 100, k at level 200, right associativity) : py_scope.
Local Open Scope py_scope.

(** ** The environment: files and the clock *)

(** [os.path.exists(p)] *)
Definition os_path_exists (p : string) : M bool :=
  σ <- get ;; ret (bool_decide (is_Some (fs σ !! p))).

(** [open(p, 'r')] and the read of the whole file. *)
Definition read_file (p : string) : M text :=
  σ <- get ;;
  match fs σ !! p with
  | Some (File t) => ret t
  | Some Dir | None => raise IOError
  end.

(** [with open(p, 'r') as f: json.load(f)] *)
Definition json_load_file (p : string) : M document :=
  t <- read_file p ;;
  match json_load t with
  | Some d => ret d
  | None => raise (json_load_raises t)
  end.

(** [open(p, 'w')]: the file is created, or truncated where it is; on a
    directory it raises.  The file system of this development is flat:
    it has no permissions and no missing parent directories, the other
    reasons for which [open] raises an [IOError]. *)
Definition open_w (p : string) : M unit :=
  σ <- get ;;
  match fs σ !! p with
  | Some Dir => raise IOError
  | Some (File _) | None => modify (with_fs (<[p := File text_empty]> (fs σ)))
  end.

(** [json.dump(d, f, indent=2)] on the file that [open_w] has just emptied. *)
Definition json_dump_file (d : document) (p : string) : M unit :=
  modify (λ σ, with_fs (<[p := File (json_dump d)]> (fs σ)) σ).

(** [datetime.now().isoformat()]: the clock is read and time moves on. *)
Definition datetime_now_isoformat : M string :=
  σ <- get ;;
  modify (with_clock (S (clock σ))) ;;
  ret (pretty (clock σ)).

(** ** class DataStore *)

Definition DATA_FILE : string := "watch_data.json".

Definition default_stats : gmap string Z :=
  <["hydration" := 75]> (<["energy" := 80]> (<["urination" := 30]> (<["stress" := 25]> ∅))).

Definition default_inventory : list item :=
  [ Item "Phone" "Electronics" 1 (Float "0.2");
    Item "Wallet" "Essentials" 1 (Float "0.1");
    Item "Keys" "Essentials" 1 (Float "0.05") ].

Definition default_settings : gmap string pyvalue :=
  <["device_name" := VStr "WristComp v1.0"]>
  (<["auto_save" := VBool true]> (<["compact_mode" := VBool false]> ∅)).

(** The default document, stamped at [t]. *)
Definition default_document (t : string) : document :=
  Document (Some default_stats) (Some default_inventory) (Some default_settings) (Some t).

Definition _default_data : M document :=
  t <- datetime_now_isoformat ;;
  ret (default_document t).

(** [except (json.JSONDecodeError, IOError)] *)
Definition handled_by_load (e : exn) : bool :=
  match e with
  | JSONDecodeError | IOError => true
  | KeyError | AttributeError | UnicodeDecodeError | RecursionError => false
  end.

Definition _load : M document :=
  σ <- get ;;
  e <- os_path_exists (filepath σ) ;;
  if (e : bool)
  then try_except (json_load_file (filepath σ)) handled_by_load _default_data
  else _default_data.

(** [DataStore(path)] in an environment: the object has no [_data] until
    [_load] has returned. *)
Definition no_data : document := Document None None None None.

Definition __init__ (path : string) (files : gmap string node) (time : nat)
  : result unit * state :=
  (d <- _load ;; modify (with_data d)) (State path no_data files time).

Definition set_last_updated (t : string) (d : document) : document :=
  Document (doc_stats d) (doc_inventory d) (doc_settings d) (Some t).
Definition set_stats (m : gmap string Z) (d : document) : document :=
  Document (Some m) (doc_inventory d) (doc_settings d) (doc_last_updated d).
Definition set_inventory (l : list item) (d : document) : document :=
  Document (doc_stats d) (Some l) (doc_settings d) (doc_last_updated d).
Definition set_settings (m : gmap string pyvalue) (d : document) : document :=
  Document (doc_stats d) (doc_inventory d) (Some m) (doc_last_updated d).

(** The three steps of [save], in the order of the source. *)
Definition save_stamp : M unit :=
  t <- datetime_now_isoformat ;;
  modify (λ σ, with_data (set_last_updated t (_data σ)) σ).
Definition save_open : M unit :=
  σ <- get ;; open_w (filepath σ).
Definition save_dump : M unit :=
  σ <- get ;; json_dump_file (_data σ) (filepath σ).

Definition save : M unit :=
  save_stamp ;; save_open ;; save_dump.

(** [self._data["stats"]], [self._data["inventory"]], [self._data["settings"]] *)
Definition data_stats : M (gmap string Z) :=
  σ <- get ;;
  match doc_stats (_data σ) with Some m => ret m | None => raise KeyError end.
Definition data_inventory : M (list item) :=
  σ <- get ;;
  match doc_inventory (_data σ) with Some l => ret l | None => raise KeyError end.
Definition data_settings : M (gmap string pyvalue) :=
  σ <- get ;;
  match doc_settings (_data σ) with Some m => ret m | None => raise KeyError end.

(** [if self._data["settings"].get("auto_save", True): self.save()] *)
Definition auto_save : M unit :=
  s <- data_settings ;;
  if truthy (default (VBool true) (s !! "auto_save")) then save else ret tt.

(** Stats accessors *)
Definition stats : M (gmap string Z) :=
  σ <- get ;; ret (default ∅ (doc_stats (_data σ))).

Definition get_stat (name : string) : M Z :=
  m <- stats ;; ret (default 0 (m !! name)).

Definition set_stat (name : string) (value : Z) : M unit :=
  m <- data_stats ;;
  modify (λ σ, with_data (set_stats (<[name := Z.max 0 (Z.min 100 value)]> m) (_data σ)) σ) ;;
  auto_save.

Definition update_stat (name : string) (delta : Z) : M unit :=
  current <- get_stat name ;;
  set_stat name (current + delta).

(** Inventory accessors *)
Definition inventory : M (list item) :=
  σ <- get ;; ret (default [] (doc_inventory (_data σ))).

Definition put_inventory (l : list item) : M unit :=
  modify (λ σ, with_data (set_inventory l (_data σ)) σ).

Definition same_name_nocase (name : string) (it : item) : Prop :=
  str_lower (i_name it) = str_lower name.
Definition same_name (name : string) (it : item) : Prop :=
  i_name it = name.

#[global] Instance same_name_nocase_dec name it : Decision (same_name_nocase name it).
Proof. unfold same_name_nocase. apply _. Defined.
#[global] Instance same_name_dec name it : Decision (same_name name it).
Proof. unfold same_name. apply _. Defined.

Definition add_item (name category : string) (quantity : Z) (weight : pyfloat) : M unit :=
  l <- data_inventory ;;
  match list_find (same_name_nocase name) l with
  | Some (i, it) =>
      put_inventory (<[i := Item (i_name it) category quantity weight]> l) ;;
      auto_save
  | None =>
      put_inventory (l ++ [Item name category quantity weight]) ;;
      auto_save
  end.

Definition update_item (original_name name category : string) (quantity : Z)
    (weight : pyfloat) : M bool :=
  l <- data_inventory ;;
  match list_find (same_name original_name) l with
  | Some (i, _) =>
      put_inventory (<[i := Item name category quantity weight]> l) ;;
      auto_save ;;
      ret true
  | None => ret false
  end.

(** [list.remove(x)]: the first element equal to [x] goes. *)
Definition list_remove (x : item) (l : list item) : list item :=
  match list_find (λ y, y = x) l with
  | Some (j, _) => delete j l
  | None => l
  end.

Definition remove_item (name : string) : M bool :=
  l <- data_inventory ;;
  match list_find (same_name name) l with
  | Some (_, it) =>
      put_inventory (list_remove it l) ;;
      auto_save ;;
      ret true
  | None => ret false
  end.

Definition get_item (name : string) : M (option item) :=
  l <- data_inventory ;;
  ret (snd <$> list_find (same_name name) l).

(** Settings accessors *)
Definition settings : M (gmap string pyvalue) :=
  σ <- get ;; ret (default ∅ (doc_settings (_data σ))).

Definition get_setting (key : string) : M pyvalue :=
  m <- settings ;; ret (default VNone (m !! key)).

Definition set_setting (key : string) (value : pyvalue) : M unit :=
  m <- data_settings ;;
  modify (λ σ, with_data (set_settings (<[key := value]> m) (_data σ)) σ) ;;
  auto_save.

Definition reset_stats : M unit :=
  modify (λ σ, with_data (set_stats default_stats (_data σ)) σ) ;;
  save.

Definition reset_all : M unit :=
  d <- _default_data ;;
  modify (with_data d) ;;
  save.

(** ** The item screens of [wrist_device.py]

    [store] is [self.app.store]; the text of the widgets that show a field
    of the item is what [compose] returns here.  The local variable [item]
    is [None] or a dictionary. *)

Definition dict_truthy (d : gmap string pyvalue) : bool :=
  negb (bool_decide (d = ∅)).

(** [item.get(key, '-') if item else '-'] inside an f-string *)
Definition detail_field (item : option (gmap string pyvalue)) (key : string) : string :=
  match item with
  | Some d => if dict_truthy d then py_str (default (VStr "-") (d !! key)) else "-"
  | None => "-"
  end.

Definition ItemDetailScreen_compose (item_name : string) : M (list string) :=
  it <- get_item item_name ;;
  let item := item_dict <$> it in
  ret [ "[b]NAME[/b]: " ++ detail_field item "name";
        "[b]CATEGORY[/b]: " ++ detail_field item "category";
        "[b]QUANTITY[/b]: " ++ detail_field item "quantity";
        "[b]WEIGHT[/b]: " ++ detail_field item "weight" ++ " kg" ].

(** [item.get(key, dflt)]: [None] has no attribute [get]. *)
Definition item_get (item : option (gmap string pyvalue)) (key : string)
    (dflt : pyvalue) : M pyvalue :=
  match item with
  | Some d => ret (default dflt (d !! key))
  | None => raise AttributeError
  end.

(** [self.item_name] is an [Optional[str]]; it is used when it is a
    non-empty string. *)
Definition ItemEditorModal_compose (item_name : option string) : M (list pyvalue) :=
  item <- match item_name with
          | Some n =>
              if PyStr.nonempty n
              then (it <- get_item n ;; ret (item_dict <$> it))
              else ret (Some ∅)
          | None => ret (Some ∅)
          end ;;
  name <- item_get item "name" (VStr "") ;;
  category <- item_get item "category" (VStr "") ;;
  quantity <- item_get item "quantity" (VInt 1) ;;
  weight <- item_get item "weight" (VFloat (Float "0.0")) ;;
  ret [ name; category; VStr (py_str quantity); VStr (py_str weight) ].

(** ** Calls on a store, and the states they reach *)

Inductive call :=
| CallSave
| CallSetStat (name : string) (value : Z)
| CallUpdateStat (name : string) (delta : Z)
| CallAddItem (name category : string) (quantity : Z) (weight : pyfloat)
| CallUpdateItem (original_name name category : string) (quantity : Z) (weight : pyfloat)
| CallRemoveItem (name : string)
| CallSetSetting (key : string) (value : pyvalue)
| CallResetStats
| CallResetAll.

(** The state a call leaves behind, whether it returns or raises. *)
Definition perform (c : call) (σ : state) : state :=
  match c with
  | CallSave => after (save σ)
  | CallSetStat n v => after (set_stat n v σ)
  | CallUpdateStat n d => after (update_stat n d σ)
  | CallAddItem n c q w => after (add_item n c q w σ)
  | CallUpdateItem o n c q w => after (update_item o n c q w σ)
  | CallRemoveItem n => after (remove_item n σ)
  | CallSetSetting k v => after (set_setting k v σ)
  | CallResetStats => after (reset_stats σ)
  | CallResetAll => after (reset_all σ)
  end.

Definition perform_all (cs : list call) (σ : state) : state :=
  foldl (λ σ c, perform c σ) σ cs.

(** Two documents that differ at most in their timestamp. *)
Definition same_content (d d' : document) : Prop :=
  doc_stats d = doc_stats d' ∧
  doc_inventory d = doc_inventory d' ∧
  doc_settings d = doc_settings d'.

(** [max(0, min(100, value))] *)
Definition clamp (value : Z) : Z := Z.max 0 (Z.min 100 value).

(** Every stat of a document, and of the document of a store, is within
    0..100. *)
Definition stats_within (d : document) : Prop :=
  ∀ m (name : string) (v : Z),
    doc_stats d = Some m → m !! name = Some v → (0 ≤ v ≤ 100)%Z.
Definition stats_in_range (σ : state) : Prop := stats_within (_data σ).

#[global] Instance stats_within_dec d : Decision (stats_within d).
Proof.
  unfold stats_within. destruct (doc_stats d) as [m|].
  - destruct (decide (map_Forall (λ (_ : string) (v : Z), (0 ≤ v ≤ 100)%Z) m)) as [H|H].
    + left. intros m' n v [= <-]. apply H.
    + right. intros H'. apply H. intros n v. by apply H'.
  - left. intros ? ? ? [=].
Defined.
#[global] Instance stats_in_range_dec σ : Decision (stats_in_range σ).
Proof. unfold stats_in_range. apply _. Defined.

(** No two entries have the same name up to case. *)
Definition names_unique_nocase (l : list item) : Prop :=
  NoDup ((λ it, str_lower (i_name it)) <$> l).

(** The document of a store, stamped with the time of its clock. *)
Definition stamped (σ : state) : document :=
  set_last_updated (pretty (clock σ)) (_data σ).

(** What a reader finds at the storage path. *)
Definition reader_sees (σ : state) : option node := fs σ !! filepath σ.

(** The states that can be observed while a sequence of steps runs: the
    state after each step, up to the first one that raises. *)
Fixpoint observations (steps : list (M unit)) (σ : state) : list state :=
  match steps with
  | [] => []
  | c :: rest =>
      match c σ with
      | (Ok _, σ') => σ' :: observations rest σ'
      | (Raise _, σ') => [σ']
      end
  end.

Definition save_steps : list (M unit) := [save_stamp; save_open; save_dump].

(** A save is atomic for a reader when every observable state shows the
    file as it was before the save or as it is after it. *)
Definition save_atomic (σ : state) : Prop :=
  ∀ σi, σi ∈ observations save_steps σ →
    reader_sees σi = reader_sees σ ∨ reader_sees σi = reader_sees (after (save σ)).

(** [set_setting] as the specification words it: the flag that decides is
    the one in force when the call is made, before the write. *)
Definition set_setting_flag_at_call (key : string) (value : pyvalue) : M unit :=
  m <- data_settings ;;
  modify (λ σ, with_data (set_settings (<[key := value]> m) (_data σ)) σ) ;;
  if truthy (default (VBool true) (m !! "auto_save")) then save else ret tt.

End DataStore.

(** ** A concrete [json] and concrete stores

    The smallest implementation of the contract: the content of a file is
    empty, or what was dumped for a document, or text that does not parse,
    or bytes that are not text. *)
Module PlainJson.

Inductive plain_text :=
| Empty
| Dumped (d : document)
| Garbled (s : string)
| Undecodable (bytes : string).

Definition load (t : plain_text) : option document :=
  match t with
  | Dumped d => Some d
  | Empty | Garbled _ | Undecodable _ => None
  end.

Definition load_raises (t : plain_text) : exn :=
  match t with
  | Undecodable _ => UnicodeDecodeError
  | Empty | Garbled _ | Dumped _ => JSONDecodeError
  end.

Definition plain_json : Json := {|
  text := plain_text;
  text_empty := Empty;
  json_dump := Dumped;
  json_load := load;
  json_load_raises := load_raises;
  json_load_dump := λ d, eq_refl;
  json_load_empty := eq_refl;
  json_load_raises_empty := eq_refl
|}.

End PlainJson.

Module Example.

Definition J : Json := PlainJson.plain_json.

(** A file system with no file, one whose data file is cut short, and one
    whose data file starts with the bytes [FF FE], which no UTF-8 text
    holds. *)
Definition no_files : gmap string (@node J) := ∅.
Definition truncated_file : gmap string (@node J) :=
  {[ DATA_FILE := @File J (PlainJson.Garbled "{ stats: ") ]}.
Definition undecodable_file : gmap string (@node J) :=
  {[ DATA_FILE :=
       @File J (PlainJson.Undecodable (String "255"%char (String "254"%char "{}"))) ]}.

(** A store created where no file exists yet. *)
Definition fresh : @state J := after (__init__ DATA_FILE no_files 0).

(** The same store once it has been saved. *)
Definition saved : @state J := after (save fresh).

(** A store read from a file whose document has no inventory. *)
Definition no_inventory_document : document :=
  Document (Some default_stats) None (Some default_settings) (Some "0").
Definition without_inventory : @state J :=
  after (__init__ DATA_FILE
           {[ DATA_FILE := @File J (PlainJson.Dumped no_inventory_document) ]} 1).

End Example.

(** * The screens that call the store

    What [wrist_device.py] does with the store outside the two [compose]
    methods above.  A handler returns the calls it makes on the user
    interface, in order; the framework that executes them is not part of
    the repository.  [int] and [float] are Python's and enter as
    parameters: [None] stands for the [ValueError] the handlers catch. *)

Module PyText.

(** [str.strip] as it acts on text that holds only ASCII characters; the
    ASCII characters [str.isspace] accepts are the blanks.  It serves the
    concrete examples; the handlers are defined over [str_strip]. *)
Definition is_space (c : ascii) : bool :=
  let n := nat_of_ascii c in
  ((9 <=? n)%nat && (n <=? 13)%nat) || ((28 <=? n)%nat && (n <=? 32)%nat).

Fixpoint lstrip (s : string) : string :=
  match s with
  | EmptyString => EmptyString
  | String c s' => if is_space c then lstrip s' else s
  end.

Fixpoint rstrip (s : string) : string :=
  match s with
  | EmptyString => EmptyString
  | String c s' =>
      match rstrip s' with
      | EmptyString => if is_space c then EmptyString else String c EmptyString
      | String c' r => String c (String c' r)
      end
  end.

(** [s.strip()] *)
Definition strip (s : string) : string := rstrip (lstrip s).

(** [s.rsplit(sep, 1)] when [sep in s]: what is before and what is after
    the last [sep]; [None] when [sep] does not occur. *)
Fixpoint rsplit1 (sep : ascii) (s : string) : option (string * string) :=
  match s with
  | EmptyString => None
  | String c s' =>
      match rsplit1 sep s' with
      | Some (before, after_sep) => Some (String c before, after_sep)
      | None => if decide (c = sep) then Some (EmptyString, s') else None
      end
  end.

(** [sep in s] *)
Fixpoint contains (sep : ascii) (s : string) : bool :=
  match s with
  | EmptyString => false
  | String c s' => bool_decide (c = sep) || contains sep s'
  end.

(** [int(s)] on ASCII text: blanks around (tab to carriage return, and
    the space; the separators 28..31 that [str.strip] removes are refused
    by [int]), an optional sign, and decimal digits that single underscores
    may separate.  The number of digits is not bounded here. *)
Definition is_int_space (c : ascii) : bool :=
  let n := nat_of_ascii c in
  ((9 <=? n)%nat && (n <=? 13)%nat) || (n =? 32)%nat.

Fixpoint int_lstrip (s : string) : string :=
  match s with
  | EmptyString => EmptyString
  | String c s' => if is_int_space c then int_lstrip s' else s
  end.

Fixpoint int_rstrip (s : string) : string :=
  match s with
  | EmptyString => EmptyString
  | String c s' =>
      match int_rstrip s' with
      | EmptyString => if is_int_space c then EmptyString else String c EmptyString
      | String c' r => String c (String c' r)
      end
  end.

Definition digit_of (c : ascii) : option Z :=
  let n := nat_of_ascii c in
  if (48 <=? n)%nat && (n <=? 57)%nat then Some (Z.of_nat (n - 48)) else None.

Fixpoint digits_from (acc : Z) (after_digit : bool) (s : string) : option Z :=
  match s with
  | EmptyString => if after_digit then Some acc else None
  | String c s' =>
      match digit_of c with
      | Some d => digits_from (acc * 10 + d) true s'
      | None =>
          if bool_decide (c = "_"%char) && after_digit
          then match s' with
               | EmptyString => None
               | String c' _ =>
                   match digit_of c' with
                   | Some _ => digits_from acc false s'
                   | None => None
                   end
               end
          else None
      end
  end.

Definition int_of_text (s : string) : option Z :=
  match int_rstrip (int_lstrip s) with
  | String "-" s' => Z.opp <$> digits_from 0 false s'
  | String "+" s' => digits_from 0 false s'
  | s' => digits_from 0 false s'
  end.

End PyText.

(** The two parameters on ASCII text. *)
Definition ascii_strings : PyString := {|
  str_lower := PyStr.lower;
  str_strip := PyText.strip
|}.

Class Builtins := {
  py_int : string → option Z;
  py_float : string → option pyfloat
}.

Section Screens.

Context `{J : Json} `{PS : PyString} `{B : Builtins}.

Declare Scope py_scope.
Notation "x <- c ;; k" := (bind c (λ x, k))
  (at level 100, c at next level, k at level 200, right associativity) : py_scope.
Notation "c ;; k" := (bind c (λ _, k))
  (at level 100, k at level 200, right associativity) : py_scope.
Local Open Scope py_scope.

(** The screens that are pushed with an argument. *)
Inductive screen :=
| ItemDetailScreen (item_name : string)
| ItemEditorModal (item_name : option string)
| DeleteItemModal (item_name : string).

(** The calls of a handler on the application and on its widgets. *)
Inductive ui_call :=
| push_screen (s : screen)
| dismiss
| refresh_inventory
| notify (message : string)
| widget_update (selector : string) (content : string).

(** [if selected:] on an [Optional[str]] *)
Definition str_truthy (s : option string) : bool :=
  match s with
  | Some n => PyStr.nonempty n
  | None => false
  end.

(** [store.update_stat], [store.add_item], ... whose result is dropped. *)
Definition discard {A} (c : M A) : M unit := _ <- c ;; ret tt.

(** ** DashboardScreen *)

Definition DashboardScreen_inventory_items : M (list string) :=
  l <- inventory ;;
  let items := take 3 l in
  if bool_decide (items = [])
  then ret ["[dim]No items[/dim]"]
  else ret ((λ it, "• " +:+ i_name it +:+ " x" +:+ pretty (i_quantity it)) <$> items).

(** ** StatsScreen *)

Definition stat_names : list string := ["hydration"; "energy"; "urination"; "stress"].

(** [for stat in stats: self.query_one(...).update(...)] *)
Fixpoint update_values (stats : list string) : M (list ui_call) :=
  match stats with
  | [] => ret []
  | stat :: rest =>
      value <- get_stat stat ;;
      updates <- update_values rest ;;
      ret (widget_update ("#" +:+ stat +:+ "_val") ("[b]" +:+ pretty value +:+ "%[/b]")
             :: updates)
  end.

Definition StatsScreen_update_display : M (list ui_call) := update_values stat_names.

(** The identifiers [_stat_control] gives to the two buttons of a stat. *)
Definition stat_inc_button (stat_id : string) : string := stat_id +:+ "_inc".
Definition stat_dec_button (stat_id : string) : string := stat_id +:+ "_dec".

Definition StatsScreen_on_button_pressed (btn_id : option string) : M (list ui_call) :=
  match btn_id with
  | Some id =>
      if PyStr.nonempty id && PyText.contains "_" id
      then match PyText.rsplit1 "_" id with
           | Some (stat_name, action) =>
               (if bool_decide (action = "inc") then update_stat stat_name 5
                else if bool_decide (action = "dec") then update_stat stat_name (-5)
                else ret tt) ;;
               StatsScreen_update_display
           | None => ret []
           end
      else ret []
  | None => ret []
  end.

(** ** InventoryScreen *)

Definition InventoryScreen_inventory_items : M (list string) :=
  items <- inventory ;;
  if bool_decide (items = [])
  then ret ["[dim]Empty[/dim]"]
  else ret ((λ it, i_name it +:+ " [" +:+ i_category it +:+ "] x"
                     +:+ pretty (i_quantity it)) <$> items).

(** [list_view.index] is [None] or the position of the highlighted row. *)
Definition InventoryScreen_selected_item_name (index : option Z) : M (option string) :=
  match index with
  | None => ret None
  | Some i =>
      items <- inventory ;;
      if bool_decide (0 ≤ i < Z.of_nat (length items))%Z
      then ret (i_name <$> items !! Z.to_nat i)
      else ret None
  end.

Definition InventoryScreen_action_view_item (index : option Z) : M (list ui_call) :=
  selected <- InventoryScreen_selected_item_name index ;;
  if str_truthy selected
  then ret [push_screen (ItemDetailScreen (default "" selected))]
  else ret [].

Definition InventoryScreen_action_add_item : M (list ui_call) :=
  ret [push_screen (ItemEditorModal None)].

Definition InventoryScreen_action_edit_item (index : option Z) : M (list ui_call) :=
  selected <- InventoryScreen_selected_item_name index ;;
  if str_truthy selected
  then ret [push_screen (ItemEditorModal selected)]
  else ret [].

Definition InventoryScreen_action_delete_item (index : option Z) : M (list ui_call) :=
  selected <- InventoryScreen_selected_item_name index ;;
  if str_truthy selected
  then ret [push_screen (DeleteItemModal (default "" selected))]
  else ret [].

Definition InventoryScreen_on_button_pressed (btn_id : option string) (index : option Z)
  : M (list ui_call) :=
  if bool_decide (btn_id = Some "btn_add") then InventoryScreen_action_add_item
  else if bool_decide (btn_id = Some "btn_edit") then InventoryScreen_action_edit_item index
  else if bool_decide (btn_id = Some "btn_delete") then InventoryScreen_action_delete_item index
  else ret [].

(** What composing a pushed screen reads from the store. *)
Definition compose (s : screen) : M unit :=
  match s with
  | ItemDetailScreen n => discard (ItemDetailScreen_compose n)
  | ItemEditorModal n => discard (ItemEditorModal_compose n)
  | DeleteItemModal _ => ret tt
  end.

(** ** ItemEditorModal *)

(** The arguments are [self.item_name] and the values of the four inputs. *)
Definition ItemEditorModal_save_item (item_name : option string)
    (name_input category_input quantity_input weight_input : string)
  : M (list ui_call) :=
  let name := str_strip name_input in
  let category :=
    if PyStr.nonempty (str_strip category_input)
    then str_strip category_input else "Uncategorized" in
  let quantity := default 1 (py_int quantity_input) in
  let weight := default (Float "0.0") (py_float weight_input) in
  if PyStr.nonempty name
  then
    (if str_truthy item_name
     then discard (update_item (default "" item_name) name category quantity weight)
     else add_item name category quantity weight) ;;
    ret [dismiss; refresh_inventory]
  else ret [].

Definition ItemEditorModal_on_button_pressed (item_name : option string)
    (btn_id : option string)
    (name_input category_input quantity_input weight_input : string)
  : M (list ui_call) :=
  if bool_decide (btn_id = Some "btn_cancel") then ret [dismiss]
  else if bool_decide (btn_id = Some "btn_save")
  then ItemEditorModal_save_item item_name name_input category_input
         quantity_input weight_input
  else ret [].

(** ** DeleteItemModal *)

Definition DeleteItemModal_on_button_pressed (item_name : string)
    (btn_id : option string) : M (list ui_call) :=
  if bool_decide (btn_id = Some "btn_cancel") then ret [dismiss]
  else if bool_decide (btn_id = Some "btn_delete")
  then discard (remove_item item_name) ;; ret [dismiss; refresh_inventory]
  else ret [].

(** ** SettingsScreen *)

(** The two lines of the device information. *)
Definition SettingsScreen_compose : M (list string) :=
  s <- settings ;;
  ret [ "Name: " +:+ py_str (default (VStr "WristComp") (s !! "device_name"));
        "Auto-save: " +:+ (if truthy (default VNone (s !! "auto_save"))
                           then "ON" else "OFF") ].

Definition SettingsScreen_on_button_pressed (btn_id : option string) : M (list ui_call) :=
  if bool_decide (btn_id = Some "btn_reset_stats")
  then reset_stats ;; ret [notify "Stats reset to defaults"]
  else if bool_decide (btn_id = Some "btn_reset_all")
  then reset_all ;; ret [notify "All data reset to defaults"]
  else ret [].

(** ** Vocabulary of the properties *)

(** The file at the path of the store holds the document of the store: a
    store created there now is this store. *)
Definition persisted (σ : state) : Prop :=
  __init__ (filepath σ) (fs σ) (clock σ) = (Ok tt, σ).

(** The [auto_save] setting as the mutators read it. *)
Definition auto_save_on (m : gmap string pyvalue) : bool :=
  truthy (default (VBool true) (m !! "auto_save")).

(** The calls that save only through the auto-save check and leave the
    [auto_save] setting alone. *)
Definition auto_saving (c : call) : bool :=
  match c with
  | CallSetStat _ _ | CallUpdateStat _ _ | CallAddItem _ _ _ _
  | CallUpdateItem _ _ _ _ _ | CallRemoveItem _ => true
  | CallSetSetting k _ => negb (bool_decide (k = "auto_save"))
  | CallSave | CallResetStats | CallResetAll => false
  end.

(** [n] calls of [update_stat name delta] in a row. *)
Fixpoint update_stat_times (n : nat) (name : string) (delta : Z) (σ : state) : state :=
  match n with
  | O => σ
  | S n' => update_stat_times n' name delta (after (update_stat name delta σ))
  end.

(** An exact-name variant of [names_unique_nocase]. *)
Definition names_unique (l : list item) : Prop := NoDup (i_name <$> l).

End Screens.

Module ExampleUI.

(** [int] as modelled on ASCII text.  For [float] the examples need a few
    texts only: the five literals below, which [float] reads and prints
    back unchanged, and words without a digit, which it refuses.  On these
    [float_of_text] is [float]; it is used on no other text. *)
Definition float_of_text (s : string) : option pyfloat :=
  let t := PyText.int_rstrip (PyText.int_lstrip s) in
  if bool_decide (t ∈ ["0.2"; "0.1"; "0.05"; "0.0"; "1.5"]) then Some (Float t) else None.

Definition B : Builtins := {|
  py_int := PyText.int_of_text;
  py_float := float_of_text
|}.

(** A file system whose data file holds a document without inventory. *)
Definition no_inventory_files : gmap string (@node Example.J) :=
  {[ DATA_FILE := @File Example.J (PlainJson.Dumped Example.no_inventory_document) ]}.

(** A store whose [auto_save] has been turned off. *)
Definition quiet : @state Example.J :=
  after (set_setting "auto_save" (VBool false) Example.saved).

(** A store whose path is a directory. *)
Definition blocked : @state Example.J :=
  State DATA_FILE (default_document "0") {[ DATA_FILE := @Dir Example.J ]} 1.

(** A store whose settings do not mention [auto_save]. *)
Definition unflagged : @state Example.J :=
  State DATA_FILE
    (Document (Some default_stats) (Some default_inventory)
       (Some {[ "device_name" := VStr "WristComp v1.0" ]}) (Some "0"))
    ∅ 1.

End ExampleUI.

(** * Properties *)

Section Properties.

Context `{J : Json} `{PS : PyString}.

Local Open Scope Z_scope.

Implicit Types (σ : state) (d : document) (l : list item).

(** Unfolds the monad and the primitive steps. *)
Ltac run :=
  unfold outcome, after, bind, ret, raise, get, modify, try_except in *;
  simpl in *.

(** ** What [save] and the auto-save check leave of the document *)

Lemma save_data σ :
  _data (after (save σ)) = set_last_updated (pretty (clock σ)) (_data σ).
Proof.
  unfold save, save_stamp, save_open, save_dump, open_w, json_dump_file,
    datetime_now_isoformat.
  run. destruct (fs σ !! filepath σ) as [[t|]|]; reflexivity.
Qed.

Lemma auto_save_content σ :
  same_content (_data σ) (_data (after (auto_save σ))).
Proof.
  unfold auto_save, data_settings. run.
  destruct (doc_settings (_data σ)) as [m|] eqn:E; simpl; [|done].
  destruct (truthy _); simpl; [|done].
  change (save σ).2 with (after (save σ)). rewrite save_data.
  done.
Qed.

Lemma save_content σ : same_content (_data σ) (_data (after (save σ))).
Proof. rewrite save_data. done. Qed.

(** Brings in what the auto-save check of the goal keeps of the document. *)
Ltac auto_save_same :=
  match goal with
  | |- context [auto_save ?s] =>
      let H := fresh "Hsame" in
      pose proof (auto_save_content s) as H;
      unfold same_content, after in H; simpl in H;
      destruct H as (? & ? & ?)
  end.

Lemma put_inventory_auto_save_stats σ l :
  doc_stats (_data (after (bind (put_inventory l) (λ _, auto_save) σ))) = doc_stats (_data σ).
Proof.
  unfold put_inventory. run. auto_save_same. congruence.
Qed.

(** ** Stats *)

Lemma get_stat_run σ name :
  get_stat name σ = (Ok (default 0 (default ∅ (doc_stats (_data σ)) !! name)), σ).
Proof. reflexivity. Qed.

Lemma set_stat_missing σ name value :
  doc_stats (_data σ) = None → set_stat name value σ = (Raise KeyError, σ).
Proof. intros E. unfold set_stat, data_stats. run. by rewrite E. Qed.

Lemma set_stat_stats σ m name value :
  doc_stats (_data σ) = Some m →
  doc_stats (_data (after (set_stat name value σ))) = Some (<[name := clamp value]> m).
Proof.
  intros E. unfold set_stat, data_stats, clamp. run. rewrite E. simpl.
  auto_save_same. congruence.
Qed.

Lemma clamp_range value : 0 ≤ clamp value ≤ 100.
Proof. unfold clamp. lia. Qed.

Lemma default_stats_range (name : string) (v : Z) :
  default_stats !! name = Some v → 0 ≤ v ≤ 100.
Proof.
  unfold default_stats. intros E.
  repeat (rewrite lookup_insert in E; case_decide; [simplify_eq; lia|]).
  by rewrite lookup_empty in E.
Qed.

Lemma insert_clamp_range (m : gmap string Z) (name : string) (value : Z) :
  (∀ (n : string) (v : Z), m !! n = Some v → 0 ≤ v ≤ 100) →
  ∀ (n : string) (v : Z), <[name := clamp value]> m !! n = Some v → 0 ≤ v ≤ 100.
Proof.
  intros Hm n v. rewrite lookup_insert. case_decide.
  - intros [= <-]. apply clamp_range.
  - apply Hm.
Qed.

Lemma set_stat_in_range σ name value :
  stats_in_range σ → stats_in_range (after (set_stat name value σ)).
Proof.
  intros Hσ m' n v. destruct (doc_stats (_data σ)) as [m|] eqn:E.
  - rewrite (set_stat_stats σ m) by done. intros [= <-].
    apply insert_clamp_range. intros ??. by apply Hσ.
  - rewrite set_stat_missing by done. simpl. by rewrite E.
Qed.

Lemma update_stat_run σ name delta :
  update_stat name delta σ =
  set_stat name (default 0 (default ∅ (doc_stats (_data σ)) !! name) + delta) σ.
Proof. reflexivity. Qed.

Lemma add_item_stats σ name category quantity weight :
  doc_stats (_data (after (add_item name category quantity weight σ))) =
  doc_stats (_data σ).
Proof.
  unfold add_item, data_inventory, put_inventory. run.
  destruct (doc_inventory (_data σ)) as [l|]; simpl; [|done].
  destruct (list_find _ l) as [[i it]|]; simpl; auto_save_same; congruence.
Qed.

Lemma update_item_stats σ original_name name category quantity weight :
  doc_stats (_data (after (update_item original_name name category quantity weight σ))) =
  doc_stats (_data σ).
Proof.
  unfold update_item, data_inventory, put_inventory. run.
  destruct (doc_inventory (_data σ)) as [l|]; simpl; [|done].
  destruct (list_find _ l) as [[i it]|]; simpl; [|done].
  auto_save_same. destruct (auto_save _) as [[[]|e] σ']; simpl in *; congruence.
Qed.

Lemma remove_item_stats σ name :
  doc_stats (_data (after (remove_item name σ))) = doc_stats (_data σ).
Proof.
  unfold remove_item, data_inventory, put_inventory. run.
  destruct (doc_inventory (_data σ)) as [l|]; simpl; [|done].
  destruct (list_find _ l) as [[i it]|]; simpl; [|done].
  auto_save_same. destruct (auto_save _) as [[[]|e] σ']; simpl in *; congruence.
Qed.

Lemma set_setting_stats σ key value :
  doc_stats (_data (after (set_setting key value σ))) = doc_stats (_data σ).
Proof.
  unfold set_setting, data_settings. run.
  destruct (doc_settings (_data σ)) as [m|]; simpl; [|done].
  auto_save_same. congruence.
Qed.

Lemma reset_stats_stats σ :
  doc_stats (_data (after (reset_stats σ))) = Some default_stats.
Proof.
  unfold reset_stats. run.
  match goal with |- context [save ?s] =>
    destruct (save_content s) as (E & _); unfold after in E; simpl in E end.
  congruence.
Qed.

Lemma reset_all_stats σ :
  doc_stats (_data (after (reset_all σ))) = Some default_stats.
Proof.
  unfold reset_all, _default_data, datetime_now_isoformat. run.
  match goal with |- context [save ?s] =>
    destruct (save_content s) as (E & _); unfold after in E; simpl in E end.
  congruence.
Qed.

Lemma perform_in_range c σ : stats_in_range σ → stats_in_range (perform c σ).
Proof.
  intros Hσ. destruct c; simpl.
  - intros m n v. destruct (save_content σ) as (<- & _). apply Hσ.
  - by apply set_stat_in_range.
  - rewrite update_stat_run. by apply set_stat_in_range.
  - intros m n v. rewrite add_item_stats. apply Hσ.
  - intros m n v. rewrite update_item_stats. apply Hσ.
  - intros m n v. rewrite remove_item_stats. apply Hσ.
  - intros m n v. rewrite set_setting_stats. apply Hσ.
  - intros m n v. rewrite reset_stats_stats. intros [= <-]. apply default_stats_range.
  - intros m n v. rewrite reset_all_stats. intros [= <-]. apply default_stats_range.
Qed.

Lemma perform_all_in_range cs σ :
  stats_in_range σ → stats_in_range (perform_all cs σ).
Proof.
  revert σ. induction cs as [|c cs IH]; intros σ Hσ; simpl; [done|].
  apply IH. by apply perform_in_range.
Qed.

(** ** Loading *)

Lemma _default_data_run σ :
  _default_data σ = (Ok (default_document (pretty (clock σ))), with_clock (S (clock σ)) σ).
Proof. reflexivity. Qed.

Lemma _load_absent σ :
  fs σ !! filepath σ = None →
  _load σ = (Ok (default_document (pretty (clock σ))), with_clock (S (clock σ)) σ).
Proof.
  intros E. unfold _load, os_path_exists. run. rewrite E.
  rewrite bool_decide_eq_false_2 by (by intros [? ?]). reflexivity.
Qed.

Lemma _load_unparsable σ t :
  fs σ !! filepath σ = Some (File t) → json_load t = None →
  handled_by_load (json_load_raises t) = true →
  _load σ = (Ok (default_document (pretty (clock σ))), with_clock (S (clock σ)) σ).
Proof.
  intros E Ht Hh. unfold _load, os_path_exists, json_load_file, read_file. run.
  rewrite E. rewrite bool_decide_eq_true_2 by eauto. simpl.
  rewrite E. simpl. rewrite Ht. unfold try_except. simpl. rewrite Hh. reflexivity.
Qed.

(** What the [except] clause does not name goes up to the caller. *)
Lemma _load_uncaught σ t :
  fs σ !! filepath σ = Some (File t) → json_load t = None →
  handled_by_load (json_load_raises t) = false →
  _load σ = (Raise (json_load_raises t), σ).
Proof.
  intros E Ht Hh. unfold _load, os_path_exists, json_load_file, read_file. run.
  rewrite E. rewrite bool_decide_eq_true_2 by eauto. simpl.
  rewrite E. simpl. rewrite Ht. unfold try_except. simpl. rewrite Hh. reflexivity.
Qed.

Lemma _load_empty σ :
  fs σ !! filepath σ = Some (File text_empty) →
  _load σ = (Ok (default_document (pretty (clock σ))), with_clock (S (clock σ)) σ).
Proof.
  intros E. apply (_load_unparsable σ text_empty E json_load_empty).
  by rewrite json_load_raises_empty.
Qed.

Lemma _load_unreadable σ :
  fs σ !! filepath σ = Some Dir →
  _load σ = (Ok (default_document (pretty (clock σ))), with_clock (S (clock σ)) σ).
Proof.
  intros E. unfold _load, os_path_exists, json_load_file, read_file. run.
  rewrite E. rewrite bool_decide_eq_true_2 by eauto. simpl.
  rewrite E. reflexivity.
Qed.

Lemma _load_parsed σ t d :
  fs σ !! filepath σ = Some (File t) → json_load t = Some d →
  _load σ = (Ok d, σ).
Proof.
  intros E Ht. unfold _load, os_path_exists, json_load_file, read_file. run.
  rewrite E. rewrite bool_decide_eq_true_2 by eauto. simpl.
  rewrite E. simpl. rewrite Ht. reflexivity.
Qed.

Lemma __init___run path files time :
  __init__ path files time =
  match _load (State path no_data files time) with
  | (Ok d, σ) => (Ok tt, with_data d σ)
  | (Raise e, σ) => (Raise e, σ)
  end.
Proof. reflexivity. Qed.

Lemma __init___absent path files time :
  files !! path = None →
  __init__ path files time =
  (Ok tt, State path (default_document (pretty time)) files (S time)).
Proof. intros E. rewrite __init___run, _load_absent by done. reflexivity. Qed.

Lemma default_document_in_range path t files time :
  stats_in_range (State path (default_document t) files time).
Proof. intros m n v [= <-]. apply default_stats_range. Qed.

(** C1: every write of a stat stores a value within 0..100.  After
    [set_stat name value] or [update_stat name delta], on any store, the
    stat read back is within 0..100; it is the written value clamped
    (80 - 500 gives 0, 80 + 500 gives 100).  Every call of the store keeps
    all stats within 0..100, so this holds in every state reached from a
    store created over a path whose file, if it parses, has its stats
    within 0..100. *)
Theorem stat_writes_stay_within_0_100 :
  (∀ σ name value, ∃ v,
     outcome (get_stat name (after (set_stat name value σ))) = Ok v ∧ 0 ≤ v ≤ 100) ∧
  (∀ σ name delta, ∃ v,
     outcome (get_stat name (after (update_stat name delta σ))) = Ok v ∧ 0 ≤ v ≤ 100) ∧
  (∀ σ m name value, doc_stats (_data σ) = Some m →
     outcome (get_stat name (after (set_stat name value σ))) = Ok (clamp value)) ∧
  (∀ σ m name delta, doc_stats (_data σ) = Some m →
     outcome (get_stat name (after (update_stat name delta σ))) =
     Ok (clamp (default 0 (m !! name) + delta))) ∧
  (∀ σ m, doc_stats (_data σ) = Some m → m !! "energy" = Some 80 →
     outcome (get_stat "energy" (after (update_stat "energy" (-500) σ))) = Ok 0 ∧
     outcome (get_stat "energy" (after (update_stat "energy" 500 σ))) = Ok 100) ∧
  (∀ σ cs, stats_in_range σ → stats_in_range (perform_all cs σ)) ∧
  (∀ path files time cs,
     (∀ t d, files !! path = Some (File t) → json_load t = Some d → stats_within d) →
     stats_in_range (perform_all cs (after (__init__ path files time)))).
Proof.
  assert (Hset : ∀ σ m name value, doc_stats (_data σ) = Some m →
     outcome (get_stat name (after (set_stat name value σ))) = Ok (clamp value)).
  { intros σ m name value E. rewrite get_stat_run. simpl.
    rewrite (set_stat_stats σ m) by done. simpl. by rewrite lookup_insert_eq. }
  assert (Hany : ∀ σ name value, ∃ v,
     outcome (get_stat name (after (set_stat name value σ))) = Ok v ∧ 0 ≤ v ≤ 100).
  { intros σ name value. destruct (doc_stats (_data σ)) as [m|] eqn:E.
    - exists (clamp value). split; [by eapply Hset | apply clamp_range].
    - exists 0. rewrite set_stat_missing by done. rewrite get_stat_run. simpl.
      rewrite E. simpl. rewrite lookup_empty. split; [done | lia]. }
  assert (Hupd : ∀ σ m name delta, doc_stats (_data σ) = Some m →
     outcome (get_stat name (after (update_stat name delta σ))) =
     Ok (clamp (default 0 (m !! name) + delta))).
  { intros σ m name delta E. rewrite update_stat_run, E. simpl. by eapply Hset. }
  split_and!.
  - exact Hany.
  - intros σ name delta. rewrite update_stat_run. apply Hany.
  - exact Hset.
  - exact Hupd.
  - intros σ m E E80. rewrite !(Hupd σ m) by done. rewrite E80. done.
  - intros σ cs. apply perform_all_in_range.
  - intros path files time cs Hfile. apply perform_all_in_range.
    rewrite __init___run.
    destruct (files !! path) as [[t|]|] eqn:E.
    + destruct (json_load t) as [d|] eqn:Ht.
      * rewrite (_load_parsed _ t d) by done. by apply (Hfile t).
      * destruct (handled_by_load (json_load_raises t)) eqn:Hh.
        -- rewrite (_load_unparsable _ t) by done. apply default_document_in_range.
        -- rewrite (_load_uncaught _ t) by done. by intros m n v.
    + rewrite _load_unreadable by done. apply default_document_in_range.
    + rewrite _load_absent by done. apply default_document_in_range.
Qed.

(** The fallback of [_load]: a store created over a path that holds no
    file, or a file on which [json.load] raises [JSONDecodeError] (or an
    [IOError]), or a path that exists and cannot be read, starts from the
    built-in default document (the four seeded stats, the three starter
    items, the default settings) and the load returns normally. *)
Lemma load_falls_back_to_default_document path files time :
  files !! path = None ∨
  (∃ t, files !! path = Some (File t) ∧ json_load t = None ∧
        handled_by_load (json_load_raises t) = true) ∨
  files !! path = Some Dir →
  ∃ stamp,
    _load (State path no_data files time) =
      (Ok (default_document stamp), State path no_data files (S time)) ∧
    __init__ path files time =
      (Ok tt, State path (default_document stamp) files (S time)) ∧
    default_document stamp =
      Document
        (Some (list_to_map [("hydration", 75); ("energy", 80);
                            ("urination", 30); ("stress", 25)]))
        (Some [Item "Phone" "Electronics" 1 (Float "0.2");
               Item "Wallet" "Essentials" 1 (Float "0.1");
               Item "Keys" "Essentials" 1 (Float "0.05")])
        (Some (list_to_map [("device_name", VStr "WristComp v1.0");
                            ("auto_save", VBool true);
                            ("compact_mode", VBool false)]))
        (Some stamp).
Proof.
  intros Hfile. exists (pretty time).
  assert (_load (State path no_data files time) =
          (Ok (default_document (pretty time)), State path no_data files (S time))) as E.
  { destruct Hfile as [E | [(t & E & Ht & Hh) | E]].
    - by rewrite _load_absent.
    - by rewrite (_load_unparsable _ t).
    - by rewrite _load_unreadable. }
  split_and!; [done | by rewrite __init___run, E | reflexivity].
Qed.

(** No other exception of [json.load] is caught: the load of a file whose
    bytes do not decode, or whose text nests too deep, raises, and so does
    the creation of the store. *)
Lemma load_lets_other_errors_through path files time t e :
  files !! path = Some (File t) → json_load t = None →
  json_load_raises t = e → e ≠ JSONDecodeError → e ≠ IOError →
  _load (State path no_data files time) = (Raise e, State path no_data files time) ∧
  __init__ path files time = (Raise e, State path no_data files time).
Proof.
  intros E Ht <- H1 H2.
  assert (handled_by_load (json_load_raises t) = false) as Hh.
  { by destruct (json_load_raises t). }
  assert (_load (State path no_data files time) =
          (Raise (json_load_raises t), State path no_data files time)) as El.
  { by rewrite (_load_uncaught _ t). }
  split; [done | by rewrite __init___run, El].
Qed.

(** ** Saving *)

Lemma save_stamp_run σ :
  save_stamp σ = (Ok tt, State (filepath σ) (stamped σ) (fs σ) (S (clock σ))).
Proof. reflexivity. Qed.

Lemma save_open_run σ :
  save_open σ =
  match fs σ !! filepath σ with
  | Some Dir => (Raise IOError, σ)
  | _ => (Ok tt, with_fs (<[filepath σ := File text_empty]> (fs σ)) σ)
  end.
Proof.
  unfold save_open, open_w. run.
  by destruct (fs σ !! filepath σ) as [[t|]|].
Qed.

Lemma save_dump_run σ :
  save_dump σ =
  (Ok tt, with_fs (<[filepath σ := File (json_dump (_data σ))]> (fs σ)) σ).
Proof. reflexivity. Qed.

Lemma save_run σ :
  save σ =
  match fs σ !! filepath σ with
  | Some Dir => (Raise IOError, State (filepath σ) (stamped σ) (fs σ) (S (clock σ)))
  | _ => (Ok tt, State (filepath σ) (stamped σ)
                   (<[filepath σ := File (json_dump (stamped σ))]> (fs σ))
                   (S (clock σ)))
  end.
Proof.
  unfold save. unfold bind at 1. rewrite save_stamp_run.
  unfold bind at 1. rewrite save_open_run. simpl.
  destruct (fs σ !! filepath σ) as [[t|]|]; try done;
    rewrite save_dump_run; unfold with_fs; simpl; by rewrite insert_insert_eq.
Qed.

Lemma save_ok_iff σ :
  outcome (save σ) = Ok tt ↔ fs σ !! filepath σ ≠ Some Dir.
Proof.
  rewrite save_run. destruct (fs σ !! filepath σ) as [[t|]|]; simpl; split; congruence.
Qed.

Lemma save_moves_clock σ : clock (after (save σ)) = S (clock σ).
Proof. rewrite save_run. by destruct (fs σ !! filepath σ) as [[t|]|]. Qed.

Lemma save_is_not_skip σ : save σ ≠ (Ok tt, σ).
Proof.
  intros E. pose proof (save_moves_clock σ) as Hc. rewrite E in Hc. simpl in Hc. lia.
Qed.

Lemma save_ends_its_steps σ :
  last (observations save_steps σ) = Some (after (save σ)).
Proof.
  rewrite save_run. unfold save_steps, observations.
  rewrite save_stamp_run, save_open_run. simpl.
  destruct (fs σ !! filepath σ) as [[t|]|]; try done;
    unfold with_fs; simpl; by rewrite insert_insert_eq.
Qed.

Lemma save_observations σ :
  fs σ !! filepath σ ≠ Some Dir →
  observations save_steps σ =
  [ State (filepath σ) (stamped σ) (fs σ) (S (clock σ));
    State (filepath σ) (stamped σ) (<[filepath σ := File text_empty]> (fs σ)) (S (clock σ));
    State (filepath σ) (stamped σ)
      (<[filepath σ := File (json_dump (stamped σ))]> (fs σ)) (S (clock σ)) ].
Proof.
  intros Hdir. unfold save_steps, observations.
  rewrite save_stamp_run, save_open_run. simpl.
  destruct (fs σ !! filepath σ) as [[t|]|]; try done;
    unfold with_fs; simpl; by rewrite insert_insert_eq.
Qed.

(** C3, as the code has it: [save] first stamps [last_updated] with the
    current time, then opens the storage file itself for writing, which
    empties it, and then writes the document into it.  No other path is
    written: there is no temporary file and no rename.  Between the
    opening and the write the file is empty and does not parse, so a store
    created at that moment starts from the default document; when [save]
    has returned the file holds the stamped document. *)
Theorem save_stamps_then_rewrites_the_file_in_place σ :
  fs σ !! filepath σ ≠ Some Dir →
  ∃ σ1 σ2 σ3,
    observations save_steps σ = [σ1; σ2; σ3] ∧ save σ = (Ok tt, σ3) ∧
    _data σ1 = stamped σ ∧ fs σ1 = fs σ ∧
    _data σ2 = stamped σ ∧ fs σ2 = <[filepath σ := File text_empty]> (fs σ) ∧
    _data σ3 = stamped σ ∧
    fs σ3 = <[filepath σ := File (json_dump (stamped σ))]> (fs σ) ∧
    (∀ p, p ≠ filepath σ → fs σ2 !! p = fs σ !! p ∧ fs σ3 !! p = fs σ !! p) ∧
    reader_sees σ2 = Some (File text_empty) ∧
    json_load text_empty = None ∧
    outcome (__init__ (filepath σ) (fs σ2) (clock σ2)) = Ok tt ∧
    _data (after (__init__ (filepath σ) (fs σ2) (clock σ2))) =
      default_document (pretty (clock σ2)).
Proof.
  intros Hdir. eexists _, _, _. split; [by apply save_observations|].
  split. { rewrite save_run. by destruct (fs σ !! filepath σ) as [[t|]|]. }
  simpl. split_and!; try done.
  - intros p Hp. by rewrite !lookup_insert_ne.
  - unfold reader_sees. simpl. by rewrite lookup_insert_eq.
  - apply json_load_empty.
  - rewrite __init___run, _load_empty; simpl;
      [done | by rewrite lookup_insert_eq].
  - rewrite __init___run, _load_empty; simpl;
      [done | by rewrite lookup_insert_eq].
Qed.

(** C5: when [save] returns, loading from the same path gives back the
    document of the store: the same stats, the same inventory and the same
    settings as before the save.  The timestamp is the one [save] has just
    written, not the one the document had.  A store created on the path
    after the save is in the state of the store that saved. *)
Theorem save_then_load_round_trip σ :
  outcome (save σ) = Ok tt →
  ∃ d,
    _load (after (save σ)) = (Ok d, after (save σ)) ∧
    doc_stats d = doc_stats (_data σ) ∧
    doc_inventory d = doc_inventory (_data σ) ∧
    doc_settings d = doc_settings (_data σ) ∧
    doc_last_updated d = Some (pretty (clock σ)) ∧
    d = _data (after (save σ)) ∧
    __init__ (filepath σ) (fs (after (save σ))) (clock (after (save σ))) =
      (Ok tt, after (save σ)).
Proof.
  rewrite save_ok_iff. intros Hdir. exists (stamped σ).
  assert (save σ = (Ok tt, State (filepath σ) (stamped σ)
            (<[filepath σ := File (json_dump (stamped σ))]> (fs σ)) (S (clock σ)))) as E.
  { rewrite save_run. by destruct (fs σ !! filepath σ) as [[t|]|]. }
  rewrite E. simpl.
  split_and!; try done.
  - apply (_load_parsed _ (json_dump (stamped σ))); simpl;
      [by rewrite lookup_insert_eq | apply json_load_dump].
  - rewrite __init___run, (_load_parsed _ (json_dump (stamped σ)) (stamped σ)); simpl;
      [done | by rewrite lookup_insert_eq | apply json_load_dump].
Qed.

(** ** Settings *)

Lemma set_setting_run σ m key value :
  doc_settings (_data σ) = Some m →
  set_setting key value σ =
  if truthy (default (VBool true) (<[key := value]> m !! "auto_save"))
  then save (with_data (set_settings (<[key := value]> m) (_data σ)) σ)
  else (Ok tt, with_data (set_settings (<[key := value]> m) (_data σ)) σ).
Proof.
  intros E. unfold set_setting, auto_save, data_settings. run. rewrite E. simpl.
  by destruct (truthy _).
Qed.

Lemma set_setting_flag_at_call_run σ m key value :
  doc_settings (_data σ) = Some m →
  set_setting_flag_at_call key value σ =
  if truthy (default (VBool true) (m !! "auto_save"))
  then save (with_data (set_settings (<[key := value]> m) (_data σ)) σ)
  else (Ok tt, with_data (set_settings (<[key := value]> m) (_data σ)) σ).
Proof.
  intros E. unfold set_setting_flag_at_call, data_settings. run. rewrite E. simpl.
  by destruct (truthy _).
Qed.

(** C2, as the code has it: [set_setting key value] writes the setting and
    then saves exactly when [auto_save] is true after the write (an absent
    flag counts as true).  For a key other than [auto_save] that is the
    flag in force when the call is made.  For the key [auto_save] it is
    the value being written: turning the flag off is not saved by the call
    that does it, turning it on is. *)
Theorem set_setting_saves_by_the_flag_after_the_write σ m key value :
  doc_settings (_data σ) = Some m →
  let written := with_data (set_settings (<[key := value]> m) (_data σ)) σ in
  let flag_at_call := truthy (default (VBool true) (m !! "auto_save")) in
  let flag_after := truthy (default (VBool true) (<[key := value]> m !! "auto_save")) in
  set_setting key value σ = (if flag_after then save written else (Ok tt, written)) ∧
  save written ≠ (Ok tt, written) ∧
  (key ≠ "auto_save" → flag_after = flag_at_call) ∧
  (key = "auto_save" → flag_after = truthy value).
Proof.
  intros E written flag_at_call flag_after. split_and!.
  - by apply set_setting_run.
  - apply save_is_not_skip.
  - intros Hk. unfold flag_after, flag_at_call. by rewrite lookup_insert_ne.
  - intros ->. unfold flag_after. by rewrite lookup_insert_eq.
Qed.

(** ** Inventory *)

Lemma add_item_inventory σ l name category quantity weight :
  doc_inventory (_data σ) = Some l →
  doc_inventory (_data (after (add_item name category quantity weight σ))) =
  Some (match list_find (same_name_nocase name) l with
        | Some (i, it) => <[i := Item (i_name it) category quantity weight]> l
        | None => (l ++ [Item name category quantity weight])%list
        end).
Proof.
  intros E. unfold add_item, data_inventory, put_inventory. run. rewrite E. simpl.
  destruct (list_find _ l) as [[i it]|]; simpl; auto_save_same; congruence.
Qed.

(** C7: [add_item] on an inventory [l].  When some entry has the given
    name up to case, the first such entry keeps its place and its name and
    takes the given category, quantity and weight; the other entries and
    the length are unchanged.  When no entry has it, the new entry is
    appended at the end. *)
Theorem add_item_overwrites_first_match_or_appends
    σ l name category quantity weight :
  doc_inventory (_data σ) = Some l →
  ∃ l',
    doc_inventory (_data (after (add_item name category quantity weight σ))) = Some l' ∧
    (∀ i it,
       l !! i = Some it → same_name_nocase name it →
       (∀ j it', l !! j = Some it' → same_name_nocase name it' → (i ≤ j)%nat) →
       l' = <[i := Item (i_name it) category quantity weight]> l ∧
       length l' = length l ∧
       l' !! i = Some (Item (i_name it) category quantity weight) ∧
       (∀ j, j ≠ i → l' !! j = l !! j)) ∧
    ((∀ it, it ∈ l → ¬ same_name_nocase name it) →
       l' = (l ++ [Item name category quantity weight])%list ∧
       length l' = S (length l) ∧
       (∀ j, (j < length l)%nat → l' !! j = l !! j) ∧
       l' !! length l = Some (Item name category quantity weight)).
Proof.
  intros E. eexists. split; [by apply add_item_inventory|]. split.
  - intros i it Hi Hit Hfirst.
    assert (list_find (same_name_nocase name) l = Some (i, it)) as ->.
    { apply list_find_Some. split_and!; [done..|].
      intros j y Hj Hlt Hy. specialize (Hfirst j y Hj Hy). lia. }
    split_and!.
    + done.
    + apply length_insert.
    + apply list_lookup_insert_eq. by eapply lookup_lt_Some.
    + intros j Hj. by apply list_lookup_insert_ne.
  - intros Hnone.
    assert (list_find (same_name_nocase name) l = None) as ->.
    { apply list_find_None, Forall_forall. done. }
    split_and!.
    + done.
    + rewrite length_app. simpl. lia.
    + intros j Hj. by apply lookup_app_l.
    + rewrite lookup_app_r by done. by rewrite Nat.sub_diag.
Qed.

Lemma list_find_same_name_None l name :
  list_find (same_name name) l = None ↔ ∀ it, it ∈ l → i_name it ≠ name.
Proof. rewrite list_find_None, Forall_forall. done. Qed.

Lemma update_item_false_iff σ l original_name name category quantity weight :
  doc_inventory (_data σ) = Some l →
  outcome (update_item original_name name category quantity weight σ) = Ok false ↔
  ∀ it, it ∈ l → i_name it ≠ original_name.
Proof.
  intros E. rewrite <- list_find_same_name_None.
  unfold update_item, data_inventory, put_inventory. run. rewrite E. simpl.
  destruct (list_find _ l) as [[i it]|]; simpl; [|done].
  destruct (auto_save _) as [[[]|e] σ']; simpl; split; congruence.
Qed.

Lemma remove_item_false_iff σ l name :
  doc_inventory (_data σ) = Some l →
  outcome (remove_item name σ) = Ok false ↔ ∀ it, it ∈ l → i_name it ≠ name.
Proof.
  intros E. rewrite <- list_find_same_name_None.
  unfold remove_item, data_inventory, put_inventory. run. rewrite E. simpl.
  destruct (list_find _ l) as [[i it]|]; simpl; [|done].
  destruct (auto_save _) as [[[]|e] σ']; simpl; split; congruence.
Qed.

(** C8: [update_item] and [remove_item] look for the entry whose name is
    exactly the given one.  When no entry has exactly that name they
    return [False], raise nothing and leave the store as it was; they
    return [False] in no other case. *)
Theorem update_and_remove_miss_return_false
    σ l original_name name category quantity weight :
  doc_inventory (_data σ) = Some l →
  (∀ it, it ∈ l → i_name it ≠ original_name) →
  update_item original_name name category quantity weight σ = (Ok false, σ) ∧
  remove_item original_name σ = (Ok false, σ) ∧
  (∀ o n c q w, outcome (update_item o n c q w σ) = Ok false ↔
                ∀ it, it ∈ l → i_name it ≠ o) ∧
  (∀ n, outcome (remove_item n σ) = Ok false ↔ ∀ it, it ∈ l → i_name it ≠ n).
Proof.
  intros E Hmiss. apply list_find_same_name_None in Hmiss. split_and!.
  - unfold update_item, data_inventory. run. rewrite E. simpl. by rewrite Hmiss.
  - unfold remove_item, data_inventory. run. rewrite E. simpl. by rewrite Hmiss.
  - intros. by apply update_item_false_iff.
  - intros. by apply remove_item_false_iff.
Qed.

Lemma update_item_inventory σ l original_name name category quantity weight :
  doc_inventory (_data σ) = Some l →
  doc_inventory (_data (after (update_item original_name name category quantity weight σ))) =
  Some (match list_find (same_name original_name) l with
        | Some (i, _) => <[i := Item name category quantity weight]> l
        | None => l
        end).
Proof.
  intros E. unfold update_item, data_inventory, put_inventory. run. rewrite E. simpl.
  destruct (list_find _ l) as [[i it]|]; simpl; [|done].
  auto_save_same. destruct (auto_save _) as [[[]|e] σ']; simpl in *; congruence.
Qed.

Lemma remove_item_inventory σ l name :
  doc_inventory (_data σ) = Some l →
  doc_inventory (_data (after (remove_item name σ))) =
  Some (match list_find (same_name name) l with
        | Some (_, it) => list_remove it l
        | None => l
        end).
Proof.
  intros E. unfold remove_item, data_inventory, put_inventory. run. rewrite E. simpl.
  destruct (list_find _ l) as [[i it]|]; simpl; [|done].
  auto_save_same. destruct (auto_save _) as [[[]|e] σ']; simpl in *; congruence.
Qed.

(** The entry that [list.remove] takes out is the one the loop stopped at. *)
Lemma list_remove_found l name i it :
  list_find (same_name name) l = Some (i, it) → list_remove it l = delete i l.
Proof.
  intros Hfind. apply list_find_Some in Hfind as (Hi & Hit & Hfirst).
  unfold list_remove.
  destruct (list_find (λ y, y = it) l) as [[j y]|] eqn:Hj.
  - apply list_find_Some in Hj as (Hj & -> & Hjfirst).
    destruct (lt_eq_lt_dec i j) as [[Hlt | ->] | Hgt]; [| done |].
    + by destruct (Hjfirst i it Hi Hlt).
    + by destruct (Hfirst j it Hj Hgt).
  - apply list_find_None in Hj. rewrite Forall_forall in Hj.
    destruct (Hj it); [|done]. apply list_elem_of_lookup. eauto.
Qed.

Lemma add_item_keeps_names_unique σ l name category quantity weight :
  doc_inventory (_data σ) = Some l → names_unique_nocase l →
  ∃ l', doc_inventory (_data (after (add_item name category quantity weight σ))) = Some l' ∧
        names_unique_nocase l'.
Proof.
  intros E Hl. eexists. split; [by apply add_item_inventory|].
  unfold names_unique_nocase in *.
  destruct (list_find _ l) as [[i it]|] eqn:Hfind.
  - apply list_find_Some in Hfind as (Hi & _ & _).
    rewrite list_fmap_insert. simpl. rewrite list_insert_id; [done|].
    by rewrite list_lookup_fmap, Hi.
  - apply list_find_None in Hfind. rewrite Forall_forall in Hfind.
    rewrite fmap_app. apply NoDup_app. split_and!; [done | | apply NoDup_singleton].
    intros x Hx Hx'. apply list_elem_of_fmap in Hx as (it & -> & Hit).
    apply list_elem_of_singleton in Hx'. simpl in Hx'. by apply (Hfind it).
Qed.

Lemma remove_item_keeps_names_unique σ l name :
  doc_inventory (_data σ) = Some l → names_unique_nocase l →
  ∃ l', doc_inventory (_data (after (remove_item name σ))) = Some l' ∧
        names_unique_nocase l'.
Proof.
  intros E Hl. eexists. split; [by apply remove_item_inventory|].
  destruct (list_find _ l) as [[i it]|] eqn:Hfind; [|done].
  rewrite (list_remove_found l name i it) by done.
  unfold names_unique_nocase in *. rewrite list_fmap_delete.
  eapply sublist_NoDup; [exact Hl | apply sublist_delete].
Qed.

(** ** The item screens over a missing item *)

Lemma get_item_run σ l name :
  doc_inventory (_data σ) = Some l →
  get_item name σ = (Ok (snd <$> list_find (same_name name) l), σ).
Proof. intros E. unfold get_item, data_inventory. run. by rewrite E. Qed.

Lemma get_item_missing_inventory σ name :
  doc_inventory (_data σ) = None → get_item name σ = (Raise KeyError, σ).
Proof. intros E. unfold get_item, data_inventory. run. by rewrite E. Qed.

Lemma detail_screen_over_missing_item σ l key :
  doc_inventory (_data σ) = Some l →
  (∀ it, it ∈ l → i_name it ≠ key) →
  ItemDetailScreen_compose key σ =
  (Ok ["[b]NAME[/b]: -"; "[b]CATEGORY[/b]: -"; "[b]QUANTITY[/b]: -";
       "[b]WEIGHT[/b]: - kg"]%string, σ).
Proof.
  intros E Hmiss. apply list_find_same_name_None in Hmiss.
  unfold ItemDetailScreen_compose. unfold bind. rewrite (get_item_run σ l) by done.
  rewrite Hmiss. reflexivity.
Qed.

Lemma editor_screen_over_missing_item σ l key :
  doc_inventory (_data σ) = Some l →
  (∀ it, it ∈ l → i_name it ≠ key) →
  PyStr.nonempty key = true →
  ItemEditorModal_compose (Some key) σ = (Raise AttributeError, σ).
Proof.
  intros E Hmiss Hkey. apply list_find_same_name_None in Hmiss.
  unfold ItemEditorModal_compose. rewrite Hkey.
  unfold bind. rewrite (get_item_run σ l) by done.
  rewrite Hmiss. reflexivity.
Qed.

Lemma editor_screen_without_key σ :
  ItemEditorModal_compose None σ =
  (Ok [VStr ""; VStr ""; VStr "1"; VStr "0.0"], σ).
Proof. reflexivity. Qed.

(** ** Documents that lack a top-level key *)

Lemma add_item_missing_settings σ l name category quantity weight :
  doc_inventory (_data σ) = Some l → doc_settings (_data σ) = None →
  outcome (add_item name category quantity weight σ) = Raise KeyError.
Proof.
  intros E Es. unfold add_item, auto_save, data_inventory, data_settings, put_inventory.
  run. rewrite E. simpl.
  destruct (list_find _ l) as [[i it]|]; simpl; by rewrite Es.
Qed.

Lemma update_item_missing_settings σ l original_name name category quantity weight :
  doc_inventory (_data σ) = Some l → doc_settings (_data σ) = None →
  outcome (update_item original_name name category quantity weight σ) =
  match list_find (same_name original_name) l with
  | Some _ => Raise KeyError
  | None => Ok false
  end.
Proof.
  intros E Es. unfold update_item, auto_save, data_inventory, data_settings, put_inventory.
  run. rewrite E. simpl.
  destruct (list_find _ l) as [[i it]|]; simpl; [by rewrite Es | done].
Qed.

Lemma remove_item_missing_settings σ l name :
  doc_inventory (_data σ) = Some l → doc_settings (_data σ) = None →
  outcome (remove_item name σ) =
  match list_find (same_name name) l with
  | Some _ => Raise KeyError
  | None => Ok false
  end.
Proof.
  intros E Es. unfold remove_item, auto_save, data_inventory, data_settings, put_inventory.
  run. rewrite E. simpl.
  destruct (list_find _ l) as [[i it]|]; simpl; [by rewrite Es | done].
Qed.

Lemma set_stat_missing_settings σ m name value :
  doc_stats (_data σ) = Some m → doc_settings (_data σ) = None →
  set_stat name value σ =
  (Raise KeyError, with_data (set_stats (<[name := clamp value]> m) (_data σ)) σ).
Proof.
  intros E Es. unfold set_stat, auto_save, data_stats, data_settings. run.
  rewrite E. simpl. by rewrite Es.
Qed.

(** C10, as the code has it.  On a document that lacks a top-level key the
    accessors [stats], [inventory], [settings], [get_stat] and
    [get_setting] return the empty mapping, the empty list, 0 and [None].
    [get_item] returns its result whenever the inventory is present, which
    covers a document that lacks the stats or the settings; it indexes the
    inventory as the mutators do and raises [KeyError] when the inventory
    is the missing key.  A mutator raises [KeyError] at the missing
    key it indexes: [set_stat] and [update_stat] for the stats, [add_item],
    [update_item] and [remove_item] for the inventory, [set_setting] and
    the auto-save check for the settings.  The auto-save check comes after
    the write, and [update_item] and [remove_item] reach it only after a
    match. *)
Theorem missing_keys_default_in_accessors_and_raise_in_mutators σ :
  (doc_stats (_data σ) = None →
     stats σ = (Ok ∅, σ) ∧
     (∀ name, get_stat name σ = (Ok 0, σ)) ∧
     (∀ name value, set_stat name value σ = (Raise KeyError, σ)) ∧
     (∀ name delta, update_stat name delta σ = (Raise KeyError, σ))) ∧
  (doc_inventory (_data σ) = None →
     inventory σ = (Ok [], σ) ∧
     (∀ name, get_item name σ = (Raise KeyError, σ)) ∧
     (∀ n c q w, add_item n c q w σ = (Raise KeyError, σ)) ∧
     (∀ o n c q w, update_item o n c q w σ = (Raise KeyError, σ)) ∧
     (∀ n, remove_item n σ = (Raise KeyError, σ))) ∧
  (doc_settings (_data σ) = None →
     settings σ = (Ok ∅, σ) ∧
     (∀ key, get_setting key σ = (Ok VNone, σ)) ∧
     (∀ key value, set_setting key value σ = (Raise KeyError, σ)) ∧
     (∀ m name value, doc_stats (_data σ) = Some m →
        set_stat name value σ =
        (Raise KeyError, with_data (set_stats (<[name := clamp value]> m) (_data σ)) σ)) ∧
     (∀ l n c q w, doc_inventory (_data σ) = Some l →
        outcome (add_item n c q w σ) = Raise KeyError) ∧
     (∀ l o n c q w, doc_inventory (_data σ) = Some l →
        outcome (update_item o n c q w σ) =
        match list_find (same_name o) l with
        | Some _ => Raise KeyError
        | None => Ok false
        end) ∧
     (∀ l n, doc_inventory (_data σ) = Some l →
        outcome (remove_item n σ) =
        match list_find (same_name n) l with
        | Some _ => Raise KeyError
        | None => Ok false
        end)) ∧
  (∀ l name, doc_inventory (_data σ) = Some l →
     get_item name σ = (Ok (snd <$> list_find (same_name name) l), σ)).
Proof.
  split_and!.
  - intros E. split_and!.
    + unfold stats. run. by rewrite E.
    + intros name. rewrite get_stat_run, E. simpl. by rewrite lookup_empty.
    + intros. by apply set_stat_missing.
    + intros. rewrite update_stat_run. by apply set_stat_missing.
  - intros E. split_and!.
    + unfold inventory. run. by rewrite E.
    + intros. by apply get_item_missing_inventory.
    + intros. unfold add_item, data_inventory. run. by rewrite E.
    + intros. unfold update_item, data_inventory. run. by rewrite E.
    + intros. unfold remove_item, data_inventory. run. by rewrite E.
  - intros E. split_and!.
    + unfold settings. run. by rewrite E.
    + intros key. unfold get_setting, settings. run. rewrite E. simpl.
      by rewrite lookup_empty.
    + intros. unfold set_setting, data_settings. run. by rewrite E.
    + intros. by apply set_stat_missing_settings.
    + intros. by eapply add_item_missing_settings.
    + intros. by apply update_item_missing_settings.
    + intros. by apply remove_item_missing_settings.
  - intros. by apply get_item_run.
Qed.

End Properties.

(** * The properties on concrete stores

    The names of the concrete stores are ASCII text, on which [str.lower]
    and [str.strip] are [PyStr.lower] and [PyText.strip]. *)

Section OnConcreteStores.

#[local] Existing Instance ascii_strings.

Lemma fresh_state :
  Example.fresh =
  State DATA_FILE (default_document "0") ∅ 1.
Proof. unfold Example.fresh, Example.no_files. by rewrite __init___absent. Qed.

Lemma saved_state :
  Example.saved =
  State DATA_FILE (set_last_updated "1" (default_document "0"))
    {[ DATA_FILE :=
         @File Example.J (PlainJson.Dumped (set_last_updated "1" (default_document "0"))) ]}
    2.
Proof.
  unfold Example.saved. rewrite fresh_state, save_run. simpl.
  rewrite lookup_empty. reflexivity.
Qed.

Lemma without_inventory_state :
  Example.without_inventory =
  State DATA_FILE Example.no_inventory_document
    {[ DATA_FILE := @File Example.J (PlainJson.Dumped Example.no_inventory_document) ]}
    1.
Proof.
  unfold Example.without_inventory. rewrite __init___run.
  erewrite _load_parsed; [reflexivity | apply lookup_singleton_eq | reflexivity].
Qed.

Lemma default_inventory_names (P : string → Prop) :
  P "Phone" → P "Wallet" → P "Keys" →
  ∀ it, it ∈ default_inventory → P (i_name it).
Proof.
  intros H1 H2 H3 it Hit. apply list_elem_of_In in Hit. simpl in Hit.
  destruct Hit as [<- | [<- | [<- | []]]]; done.
Qed.

Lemma stat_writes_stay_within_0_100_witness :
  stats_in_range Example.fresh ∧
  stats_in_range
    (perform_all [CallUpdateStat "energy" (-500); CallSetStat "stress" 1000;
                  CallResetStats] Example.fresh) ∧
  outcome (get_stat "energy" (after (update_stat "energy" (-500) Example.fresh))) = Ok 0%Z ∧
  outcome (get_stat "energy" (after (update_stat "energy" 500 Example.fresh))) = Ok 100%Z.
Proof.
  destruct (stat_writes_stay_within_0_100 (J := Example.J))
    as (_ & _ & _ & _ & H80 & Hinv & _).
  assert (stats_in_range Example.fresh) as Hfresh.
  { rewrite fresh_state. apply default_document_in_range. }
  split; [exact Hfresh|]. split; [by apply Hinv|].
  apply (H80 Example.fresh default_stats).
  - by rewrite fresh_state.
  - reflexivity.
Defined.

(** C2 as stated fails: on a store whose [auto_save] is true, the call
    [set_setting("auto_save", False)] differs from a [set_setting] that
    decides by the flag at the moment of the call; it writes no file. *)
Lemma set_setting_auto_save_off_is_not_saved :
  get_setting "auto_save" Example.fresh = (Ok (VBool true), Example.fresh) ∧
  outcome (set_setting "auto_save" (VBool false) Example.fresh) = Ok tt ∧
  fs (after (set_setting "auto_save" (VBool false) Example.fresh)) = fs Example.fresh ∧
  reader_sees (after (set_setting "auto_save" (VBool false) Example.fresh)) = None ∧
  reader_sees (after (set_setting_flag_at_call "auto_save" (VBool false) Example.fresh))
    ≠ None ∧
  set_setting "auto_save" (VBool false) Example.fresh ≠
  set_setting_flag_at_call "auto_save" (VBool false) Example.fresh.
Proof.
  rewrite fresh_state.
  rewrite (set_setting_run _ default_settings) by done.
  rewrite (set_setting_flag_at_call_run _ default_settings) by done.
  rewrite lookup_insert_eq. simpl.
  assert (default (VBool true) (default_settings !! "auto_save") = VBool true) as ->
    by reflexivity.
  simpl. rewrite save_run. simpl. rewrite lookup_empty.
  split_and!; done.
Qed.

Lemma set_setting_saves_by_the_flag_after_the_write_witness :
  set_setting "auto_save" (VBool false) Example.fresh =
    (Ok tt,
     with_data
       (set_settings (<["auto_save" := VBool false]> default_settings)
          (_data Example.fresh))
       Example.fresh) ∧
  set_setting "compact_mode" (VBool true) Example.fresh =
    save
      (with_data
         (set_settings (<["compact_mode" := VBool true]> default_settings)
            (_data Example.fresh))
         Example.fresh).
Proof.
  assert (doc_settings (_data Example.fresh) = Some default_settings) as E
    by (by rewrite fresh_state).
  split.
  - destruct (set_setting_saves_by_the_flag_after_the_write
                Example.fresh default_settings "auto_save" (VBool false) E)
      as (-> & _ & _ & ->); done.
  - destruct (set_setting_saves_by_the_flag_after_the_write
                Example.fresh default_settings "compact_mode" (VBool true) E)
      as (-> & _ & -> & _); done.
Defined.

(** C3 as stated fails: while the saved store saves again, a reader finds
    the file empty, which is neither the file before the save nor the
    file after it. *)
Lemma save_is_not_atomic : ¬ save_atomic Example.saved.
Proof.
  intros Hatomic.
  assert (fs Example.saved !! filepath Example.saved ≠ Some Dir) as Hdir.
  { rewrite saved_state. simpl. by rewrite lookup_singleton_eq. }
  pose proof (save_observations Example.saved Hdir) as Hobs.
  destruct (Hatomic
    (State (filepath Example.saved) (stamped Example.saved)
       (<[filepath Example.saved := File text_empty]> (fs Example.saved))
       (S (clock Example.saved)))) as [Hsame | Hsame].
  - rewrite Hobs. set_solver.
  - revert Hsame. unfold reader_sees. simpl. rewrite lookup_insert_eq.
    rewrite saved_state. simpl. by rewrite lookup_singleton_eq.
  - revert Hsame. unfold reader_sees. simpl. rewrite lookup_insert_eq.
    rewrite save_run. rewrite saved_state. simpl. rewrite lookup_singleton_eq.
    simpl. by rewrite lookup_insert_eq.
Qed.

Lemma save_stamps_then_rewrites_the_file_in_place_witness :
  ∃ σ2,
    σ2 ∈ observations save_steps Example.saved ∧
    reader_sees σ2 = Some (@File Example.J PlainJson.Empty) ∧
    _data (after (__init__ DATA_FILE (fs σ2) (clock σ2))) =
      default_document "3".
Proof.
  assert (fs Example.saved !! filepath Example.saved ≠ Some Dir) as Hdir.
  { rewrite saved_state. simpl. by rewrite lookup_singleton_eq. }
  destruct (save_stamps_then_rewrites_the_file_in_place Example.saved Hdir)
    as (σ1 & σ2 & σ3 & Hobs & _ & _ & _ & _ & Hfs & _ & _ & _ & Hsees & _ & _ & Hd).
  exists σ2. split; [rewrite Hobs; set_solver|]. split; [exact Hsees|].
  rewrite saved_state in Hd. simpl in Hd. rewrite Hd.
  pose proof (save_observations Example.saved Hdir) as Hobs'.
  rewrite Hobs in Hobs'. injection Hobs' as _ -> _.
  rewrite saved_state. reflexivity.
Defined.

Lemma load_falls_back_on_concrete_files :
  __init__ DATA_FILE Example.no_files 0 =
    (Ok tt, State DATA_FILE (default_document "0") Example.no_files 1) ∧
  __init__ DATA_FILE Example.truncated_file 0 =
    (Ok tt, State DATA_FILE (default_document "0") Example.truncated_file 1).
Proof.
  split.
  - by rewrite __init___absent.
  - rewrite __init___run.
    erewrite _load_unparsable; [done | apply lookup_singleton_eq | done | done].
Qed.

(** C4 fails on the code: over a data file whose bytes are not text
    ([FF FE] at its start), [json.load] raises [UnicodeDecodeError] while
    it reads the file.  The [except] clause of [_load] names
    [JSONDecodeError] and [IOError] only, so the error leaves [_load] and
    [DataStore(path)]: no default document is produced, the store has no
    data.  Over a file that is cut short the same clause does catch the
    error and the store starts from the default document. *)
Theorem load_raises_on_a_file_that_does_not_decode :
  _load (State DATA_FILE no_data Example.undecodable_file 0) =
    (Raise UnicodeDecodeError, State DATA_FILE no_data Example.undecodable_file 0) ∧
  __init__ DATA_FILE Example.undecodable_file 0 =
    (Raise UnicodeDecodeError, State DATA_FILE no_data Example.undecodable_file 0) ∧
  handled_by_load UnicodeDecodeError = false ∧
  handled_by_load JSONDecodeError = true ∧
  handled_by_load IOError = true ∧
  __init__ DATA_FILE Example.truncated_file 0 =
    (Ok tt, State DATA_FILE (default_document "0") Example.truncated_file 1).
Proof.
  split_and!; reflexivity.
Qed.

Lemma save_then_load_round_trip_witness :
  outcome (save Example.fresh) = Ok tt ∧
  ∃ d,
    _load (after (save Example.fresh)) = (Ok d, after (save Example.fresh)) ∧
    doc_stats d = Some default_stats ∧
    doc_inventory d = Some default_inventory ∧
    doc_settings d = Some default_settings ∧
    doc_last_updated d = Some "1" ∧
    doc_last_updated (_data Example.fresh) = Some "0".
Proof.
  assert (outcome (save Example.fresh) = Ok tt) as Hok.
  { apply save_ok_iff. rewrite fresh_state. simpl. by rewrite lookup_empty. }
  split; [exact Hok|].
  destruct (save_then_load_round_trip Example.fresh Hok)
    as (d & Hload & Hs & Hi & Hset & Ht & _).
  exists d. rewrite fresh_state in Hs, Hi, Hset, Ht. rewrite fresh_state at 3.
  by split_and!.
Defined.

(** C6 fails on the code: renaming the wallet to the name of the phone
    leaves two entries whose names are equal up to case, in a store that
    started from the default document. *)
Lemma update_item_can_duplicate_a_name :
  doc_inventory (_data Example.fresh) = Some default_inventory ∧
  names_unique_nocase default_inventory ∧
  outcome (update_item "Wallet" "phone" "Essentials" 1 (Float "0.1") Example.fresh) =
    Ok true ∧
  doc_inventory
    (_data (after (update_item "Wallet" "phone" "Essentials" 1 (Float "0.1")
                     Example.fresh))) =
    Some [ Item "Phone" "Electronics" 1 (Float "0.2");
           Item "phone" "Essentials" 1 (Float "0.1");
           Item "Keys" "Essentials" 1 (Float "0.05") ] ∧
  ¬ names_unique_nocase
      [ Item "Phone" "Electronics" 1 (Float "0.2");
        Item "phone" "Essentials" 1 (Float "0.1");
        Item "Keys" "Essentials" 1 (Float "0.05") ].
Proof.
  split_and!.
  - by rewrite fresh_state.
  - unfold names_unique_nocase. apply (bool_decide_unpack _). by vm_compute.
  - rewrite fresh_state.
    unfold update_item, auto_save, data_inventory, data_settings, put_inventory.
    unfold outcome, bind, get, modify, ret. simpl.
    assert (default (VBool true) (default_settings !! "auto_save") = VBool true) as ->
      by reflexivity.
    simpl. rewrite save_run. simpl. by rewrite lookup_empty.
  - rewrite (update_item_inventory _ default_inventory) by (by rewrite fresh_state).
    reflexivity.
  - unfold names_unique_nocase. simpl. intros Hdup.
    apply NoDup_cons in Hdup as (Hin & _). apply Hin. set_solver.
Qed.

(** C9 fails on the code: the editor built with a key that matches no item
    raises [AttributeError], where the detail screen built with the same
    key shows the placeholder in every field. *)
Lemma item_editor_over_missing_item_raises :
  get_item "Ghost" Example.fresh = (Ok None, Example.fresh) ∧
  ItemEditorModal_compose (Some "Ghost") Example.fresh =
    (Raise AttributeError, Example.fresh) ∧
  ItemDetailScreen_compose "Ghost" Example.fresh =
    (Ok ["[b]NAME[/b]: -"; "[b]CATEGORY[/b]: -"; "[b]QUANTITY[/b]: -";
         "[b]WEIGHT[/b]: - kg"], Example.fresh).
Proof.
  assert (doc_inventory (_data Example.fresh) = Some default_inventory) as E
    by (by rewrite fresh_state).
  assert (∀ it, it ∈ default_inventory → i_name it ≠ "Ghost") as Hmiss
    by (by apply (default_inventory_names (λ n, n ≠ "Ghost"))).
  split_and!.
  - rewrite (get_item_run _ default_inventory) by done.
    apply list_find_same_name_None in Hmiss. by rewrite Hmiss.
  - by apply (editor_screen_over_missing_item _ default_inventory).
  - by apply (detail_screen_over_missing_item _ default_inventory).
Qed.

Lemma add_item_overwrites_first_match_or_appends_witness :
  doc_inventory
    (_data (after (add_item "KEYS" "Gadgets" 2 (Float "0.3") Example.fresh))) =
    Some [ Item "Phone" "Electronics" 1 (Float "0.2");
           Item "Wallet" "Essentials" 1 (Float "0.1");
           Item "Keys" "Gadgets" 2 (Float "0.3") ] ∧
  doc_inventory
    (_data (after (add_item "Pen" "Essentials" 1 (Float "0.01") Example.fresh))) =
    Some [ Item "Phone" "Electronics" 1 (Float "0.2");
           Item "Wallet" "Essentials" 1 (Float "0.1");
           Item "Keys" "Essentials" 1 (Float "0.05");
           Item "Pen" "Essentials" 1 (Float "0.01") ].
Proof.
  assert (doc_inventory (_data Example.fresh) = Some default_inventory) as E
    by (by rewrite fresh_state).
  split.
  - destruct (add_item_overwrites_first_match_or_appends
                Example.fresh default_inventory "KEYS" "Gadgets" 2 (Float "0.3") E)
      as (l' & -> & Hmatch & _).
    destruct (Hmatch 2%nat (Item "Keys" "Essentials" 1 (Float "0.05")))
      as (-> & _).
    + reflexivity.
    + reflexivity.
    + intros [|[|j]] it' Hj Hsame; [| |lia].
      * injection Hj as <-. discriminate Hsame.
      * injection Hj as <-. discriminate Hsame.
    + reflexivity.
  - destruct (add_item_overwrites_first_match_or_appends
                Example.fresh default_inventory "Pen" "Essentials" 1 (Float "0.01") E)
      as (l' & -> & _ & Hnew).
    destruct Hnew as (-> & _); [|reflexivity].
    by apply (default_inventory_names (λ n, str_lower n ≠ str_lower "Pen")).
Defined.

Lemma update_and_remove_miss_return_false_witness :
  update_item "phone" "Phone 2" "Electronics" 1 (Float "0.2") Example.fresh =
    (Ok false, Example.fresh) ∧
  remove_item "phone" Example.fresh = (Ok false, Example.fresh).
Proof.
  assert (doc_inventory (_data Example.fresh) = Some default_inventory) as E
    by (by rewrite fresh_state).
  destruct (update_and_remove_miss_return_false
              Example.fresh default_inventory "phone" "Phone 2" "Electronics" 1
              (Float "0.2") E) as (Hu & Hr & _).
  - by apply (default_inventory_names (λ n, n ≠ "phone")).
  - by split.
Defined.

(** C10 as stated fails: on a document read from a file that has no
    inventory, the accessor [inventory] returns the empty list but
    [get_item] raises [KeyError]. *)
Lemma get_item_raises_without_inventory :
  doc_inventory (_data Example.without_inventory) = None ∧
  inventory Example.without_inventory = (Ok [], Example.without_inventory) ∧
  get_item "Phone" Example.without_inventory =
    (Raise KeyError, Example.without_inventory).
Proof.
  assert (doc_inventory (_data Example.without_inventory) = None) as E
    by (by rewrite without_inventory_state).
  split_and!; [done | | by apply get_item_missing_inventory].
  unfold inventory, bind, get, ret. by rewrite E.
Qed.

Lemma missing_keys_default_in_accessors_and_raise_in_mutators_witness :
  inventory Example.without_inventory = (Ok [], Example.without_inventory) ∧
  add_item "Pen" "Essentials" 1 (Float "0.01") Example.without_inventory =
    (Raise KeyError, Example.without_inventory) ∧
  remove_item "Phone" Example.without_inventory =
    (Raise KeyError, Example.without_inventory).
Proof.
  destruct (missing_keys_default_in_accessors_and_raise_in_mutators
              Example.without_inventory) as (_ & Hinv & _).
  destruct Hinv as (Hi & _ & Ha & _ & Hr).
  - by rewrite without_inventory_state.
  - by split_and!.
Defined.

End OnConcreteStores.

(** * More of the store and of its callers *)

Section MoreProperties.

Context `{J : Json} `{PS : PyString} `{B : Builtins}.

Local Open Scope Z_scope.

Implicit Types (σ : state) (d : document) (l : list item) (m : gmap string pyvalue).

Ltac py_run :=
  unfold outcome, after, discard, bind, ret, raise, get, modify, try_except in *;
  simpl in *.

(** ** How the mutators run *)

Lemma auto_save_run σ m :
  doc_settings (_data σ) = Some m →
  auto_save σ = if auto_save_on m then save σ else (Ok tt, σ).
Proof.
  intros E. unfold auto_save, auto_save_on, data_settings. py_run. rewrite E. simpl.
  by destruct (truthy _).
Qed.

Lemma set_stat_run σ ms name value :
  doc_stats (_data σ) = Some ms →
  set_stat name value σ =
  auto_save (with_data (set_stats (<[name := clamp value]> ms) (_data σ)) σ).
Proof.
  intros E. unfold set_stat, data_stats, clamp. py_run. rewrite E. simpl.
  by destruct (auto_save _) as [[[]|e] σ'].
Qed.

Lemma add_item_run σ l name category quantity weight :
  doc_inventory (_data σ) = Some l →
  add_item name category quantity weight σ =
  auto_save
    (with_data
       (set_inventory
          (match list_find (same_name_nocase name) l with
           | Some (i, it) => <[i := Item (i_name it) category quantity weight]> l
           | None => (l ++ [Item name category quantity weight])%list
           end) (_data σ)) σ).
Proof.
  intros E. unfold add_item, data_inventory, put_inventory. py_run. rewrite E. simpl.
  destruct (list_find _ l) as [[i it]|]; simpl; by destruct (auto_save _) as [[[]|e] σ'].
Qed.

Lemma update_item_run σ l original_name name category quantity weight :
  doc_inventory (_data σ) = Some l →
  update_item original_name name category quantity weight σ =
  match list_find (same_name original_name) l with
  | Some (i, _) =>
      match auto_save (with_data (set_inventory
              (<[i := Item name category quantity weight]> l) (_data σ)) σ) with
      | (Ok _, σ') => (Ok true, σ')
      | (Raise e, σ') => (Raise e, σ')
      end
  | None => (Ok false, σ)
  end.
Proof.
  intros E. unfold update_item, data_inventory, put_inventory. py_run. rewrite E. simpl.
  destruct (list_find _ l) as [[i it]|]; simpl; [|done].
  by destruct (auto_save _) as [[[]|e] σ'].
Qed.

Lemma remove_item_run σ l name :
  doc_inventory (_data σ) = Some l →
  remove_item name σ =
  match list_find (same_name name) l with
  | Some (i, _) =>
      match auto_save (with_data (set_inventory (delete i l) (_data σ)) σ) with
      | (Ok _, σ') => (Ok true, σ')
      | (Raise e, σ') => (Raise e, σ')
      end
  | None => (Ok false, σ)
  end.
Proof.
  intros E. unfold remove_item, data_inventory, put_inventory. py_run. rewrite E. simpl.
  destruct (list_find _ l) as [[i it]|] eqn:Hfind; simpl; [|done].
  rewrite (list_remove_found l name i it) by done.
  by destruct (auto_save _) as [[[]|e] σ'].
Qed.

Lemma save_ok_state σ :
  fs σ !! filepath σ ≠ Some Dir →
  save σ =
  (Ok tt, State (filepath σ) (stamped σ)
            (<[filepath σ := File (json_dump (stamped σ))]> (fs σ)) (S (clock σ))).
Proof. intros Hdir. rewrite save_run. by destruct (fs σ !! filepath σ) as [[t|]|]. Qed.

Lemma save_failed_state σ :
  fs σ !! filepath σ = Some Dir →
  save σ = (Raise IOError, State (filepath σ) (stamped σ) (fs σ) (S (clock σ))).
Proof. intros Hdir. by rewrite save_run, Hdir. Qed.

Lemma save_persists σ :
  outcome (save σ) = Ok tt → persisted (after (save σ)).
Proof.
  rewrite save_ok_iff. intros Hdir. rewrite save_ok_state by done.
  unfold persisted. simpl. rewrite __init___run.
  rewrite (_load_parsed _ (json_dump (stamped σ)) (stamped σ)); simpl;
    [done | by rewrite lookup_insert_eq | apply json_load_dump].
Qed.

Lemma save_ok_or_ioerror σ :
  outcome (save σ) = Ok tt ∨ outcome (save σ) = Raise IOError.
Proof. rewrite save_run. destruct (fs σ !! filepath σ) as [[t|]|]; auto. Qed.

Lemma auto_save_persists σ m :
  doc_settings (_data σ) = Some m → auto_save_on m = true →
  outcome (auto_save σ) = Ok tt → persisted (after (auto_save σ)).
Proof.
  intros E Hon. rewrite (auto_save_run σ m), Hon by done. apply save_persists.
Qed.

(** ** Resets *)


(** X2: [reset_all] replaces the whole document by the default one,
    whatever the document was and whichever keys it lacked, and saves
    whatever [auto_save] says.  The timestamp is the one of the save, one
    tick after the one [_default_data] took.  The call raises nothing but
    the error of the save, and when it returns the file holds the
    document. *)
Theorem reset_all_restores_the_default_document σ :
  _data (after (reset_all σ)) = default_document (pretty (S (clock σ))) ∧
  clock (after (reset_all σ)) = S (S (clock σ)) ∧
  reset_all σ =
    save (with_data (default_document (pretty (clock σ))) (with_clock (S (clock σ)) σ)) ∧
  (outcome (reset_all σ) = Ok tt ∨ outcome (reset_all σ) = Raise IOError) ∧
  (fs σ !! filepath σ = Some Dir → outcome (reset_all σ) = Raise IOError) ∧
  (outcome (reset_all σ) = Ok tt → persisted (after (reset_all σ))).
Proof.
  assert (reset_all σ =
          save (with_data (default_document (pretty (clock σ)))
                  (with_clock (S (clock σ)) σ))) as E.
  { unfold reset_all. unfold bind at 1. rewrite _default_data_run.
    py_run. by destruct (save _) as [[[]|e] σ']. }
  split_and!; [| |exact E| | |]; rewrite E.
  - by rewrite save_data.
  - by rewrite save_moves_clock.
  - apply save_ok_or_ioerror.
  - intros Hdir. by rewrite save_failed_state.
  - apply save_persists.
Qed.

(** ** Stats *)

Lemma clamp_step v delta k :
  0 ≤ v ≤ 100 → (0 ≤ delta ∧ 0 ≤ k ∨ delta ≤ 0 ∧ k ≤ 0) →
  clamp (clamp (v + delta) + k) = clamp (v + delta + k).
Proof. unfold clamp. lia. Qed.

Lemma update_stat_stats σ ms name delta :
  doc_stats (_data σ) = Some ms →
  doc_stats (_data (after (update_stat name delta σ))) =
  Some (<[name := clamp (default 0 (ms !! name) + delta)]> ms).
Proof.
  intros E. rewrite update_stat_run, E. simpl. by apply set_stat_stats.
Qed.

(** X3: repeated [update_stat] adds up until it reaches a bound and then
    stays there.  From a stored value [v] within 0..100, [n] calls of
    [update_stat name delta] leave [v + n * delta] clamped to 0..100: once
    at 0 a negative delta changes nothing, once at 100 a positive one
    changes nothing. *)
Theorem repeated_update_stat_adds_up_to_the_bound σ ms name delta n v :
  doc_stats (_data σ) = Some ms →
  default 0 (ms !! name) = v → 0 ≤ v ≤ 100 →
  outcome (get_stat name (update_stat_times n name delta σ)) =
  Ok (clamp (v + Z.of_nat n * delta)).
Proof.
  revert σ ms v. induction n as [|n IH]; intros σ ms v E Hv Hrange.
  - change (update_stat_times 0 name delta σ) with σ.
    rewrite get_stat_run, E. simpl. rewrite Hv.
    unfold clamp. f_equal. lia.
  - change (update_stat_times (S n) name delta σ)
      with (update_stat_times n name delta (after (update_stat name delta σ))).
    rewrite (IH _ (<[name := clamp (v + delta)]> ms) (clamp (v + delta))).
    + f_equal. rewrite clamp_step; [f_equal; lia | done | nia].
    + rewrite (update_stat_stats σ ms) by done. by rewrite Hv.
    + by rewrite lookup_insert_eq.
    + apply clamp_range.
Qed.

(** X4: a write of a stat changes that stat only.  After [set_stat] or
    [update_stat] every other stat reads as before and the inventory and
    the settings are the same; [update_stat] on a name that is not stored
    creates it from 0. *)
Theorem a_stat_write_touches_one_stat σ ms name value :
  doc_stats (_data σ) = Some ms →
  (∀ other, other ≠ name →
     outcome (get_stat other (after (set_stat name value σ))) =
     outcome (get_stat other σ)) ∧
  (∀ other, other ≠ name →
     outcome (get_stat other (after (update_stat name value σ))) =
     outcome (get_stat other σ)) ∧
  doc_inventory (_data (after (set_stat name value σ))) = doc_inventory (_data σ) ∧
  doc_settings (_data (after (set_stat name value σ))) = doc_settings (_data σ) ∧
  (ms !! name = None →
     outcome (get_stat name (after (update_stat name value σ))) = Ok (clamp value)).
Proof.
  intros E.
  assert (∀ v other, other ≠ name →
     outcome (get_stat other (after (set_stat name v σ))) = outcome (get_stat other σ))
    as Hother.
  { intros v other Hne. rewrite !get_stat_run. simpl.
    rewrite (set_stat_stats σ ms), E by done. simpl. by rewrite lookup_insert_ne. }
  split_and!.
  - apply Hother.
  - intros other Hne. rewrite update_stat_run. by apply Hother.
  - rewrite (set_stat_run σ ms) by done.
    by destruct (auto_save_content
                   (with_data (set_stats (<[name:=clamp value]> ms) (_data σ)) σ))
      as (_ & <- & _).
  - rewrite (set_stat_run σ ms) by done.
    by destruct (auto_save_content
                   (with_data (set_stats (<[name:=clamp value]> ms) (_data σ)) σ))
      as (_ & _ & <-).
  - intros Hnew. rewrite get_stat_run. simpl.
    rewrite (update_stat_stats σ ms) by done. simpl.
    rewrite lookup_insert_eq, Hnew. simpl. by rewrite Z.add_0_l.
Qed.

(** ** Auto-save *)

(** What a call that writes nothing to disk leaves as it was. *)
Lemma quiet_call c σ m :
  doc_settings (_data σ) = Some m → auto_save_on m = false → auto_saving c = true →
  fs (perform c σ) = fs σ ∧ clock (perform c σ) = clock σ ∧
  filepath (perform c σ) = filepath σ ∧
  doc_last_updated (_data (perform c σ)) = doc_last_updated (_data σ) ∧
  ∃ m', doc_settings (_data (perform c σ)) = Some m' ∧ auto_save_on m' = false.
Proof.
  intros E Hoff Hc.
  assert (∀ d', doc_settings d' = Some m →
            auto_save (with_data d' σ) = (Ok tt, with_data d' σ)) as Hquiet.
  { intros d' E'. by rewrite (auto_save_run _ m), Hoff. }
  destruct c as [|n v|n dl|n c q w|o n c q w|n|k v| |]; simpl in Hc; try done; simpl.
  - destruct (doc_stats (_data σ)) as [ms|] eqn:Es.
    + rewrite (set_stat_run σ ms), Hquiet by done. simpl. eauto 10.
    + rewrite set_stat_missing by done. simpl. eauto 10.
  - rewrite update_stat_run. destruct (doc_stats (_data σ)) as [ms|] eqn:Es.
    + rewrite (set_stat_run σ ms), Hquiet by done. simpl. eauto 10.
    + rewrite set_stat_missing by done. simpl. eauto 10.
  - destruct (doc_inventory (_data σ)) as [l|] eqn:El.
    + rewrite (add_item_run σ l), Hquiet by done. simpl. eauto 10.
    + unfold add_item, data_inventory. py_run. rewrite El. simpl. eauto 10.
  - destruct (doc_inventory (_data σ)) as [l|] eqn:El.
    + rewrite (update_item_run σ l) by done.
      destruct (list_find _ l) as [[i it]|]; [rewrite Hquiet by done|]; simpl; eauto 10.
    + unfold update_item, data_inventory. py_run. rewrite El. simpl. eauto 10.
  - destruct (doc_inventory (_data σ)) as [l|] eqn:El.
    + rewrite (remove_item_run σ l) by done.
      destruct (list_find _ l) as [[i it]|]; [rewrite Hquiet by done|]; simpl; eauto 10.
    + unfold remove_item, data_inventory. py_run. rewrite El. simpl. eauto 10.
  - apply negb_true_iff, bool_decide_eq_false in Hc.
    assert (auto_save_on (<[k := v]> m) = false) as Hoff'.
    { unfold auto_save_on in *. by rewrite lookup_insert_ne. }
    rewrite (set_setting_run σ m) by done. unfold auto_save_on in Hoff'.
    rewrite Hoff'. simpl. split_and!; try done. eexists. split; [done|]. exact Hoff'.
Qed.

(** X5: while [auto_save] is off, writes of stats, of items and of the
    other settings never reach the disk.  Whatever such calls are made, in
    whatever number, the file system, the clock and [last_updated] stay as
    they were; only [save], [reset_stats], [reset_all] and turning
    [auto_save] on write the file. *)
Theorem with_auto_save_off_nothing_is_written σ m cs :
  doc_settings (_data σ) = Some m → auto_save_on m = false →
  Forall (λ c, auto_saving c = true) cs →
  fs (perform_all cs σ) = fs σ ∧
  clock (perform_all cs σ) = clock σ ∧
  doc_last_updated (_data (perform_all cs σ)) = doc_last_updated (_data σ) ∧
  outcome (__init__ (filepath σ) (fs (perform_all cs σ)) (clock σ)) =
    outcome (__init__ (filepath σ) (fs σ) (clock σ)) ∧
  _data (after (__init__ (filepath σ) (fs (perform_all cs σ)) (clock σ))) =
    _data (after (__init__ (filepath σ) (fs σ) (clock σ))).
Proof.
  intros E Hoff Hcs.
  assert (fs (perform_all cs σ) = fs σ ∧ clock (perform_all cs σ) = clock σ ∧
          doc_last_updated (_data (perform_all cs σ)) = doc_last_updated (_data σ))
    as (Hfs & Hclock & Hstamp).
  { revert σ m E Hoff. induction Hcs as [|c cs Hc _ IH]; intros σ m E Hoff; [done|].
    destruct (quiet_call c σ m E Hoff Hc) as (Hfs & Hclock & _ & Hstamp & m' & E' & Hoff').
    simpl. destruct (IH _ _ E' Hoff') as (-> & -> & ->). done. }
  rewrite Hfs. done.
Qed.

(** X6: while [auto_save] is on, a mutation that returns is on disk.
    When [set_stat], [update_stat], [add_item] or [set_setting] of another
    key returns, or [update_item] or [remove_item] returns [True], the
    file holds the document of the store: a store created on the path at
    that moment is the store that wrote. *)
Theorem with_auto_save_on_a_returned_mutation_is_on_disk σ m :
  doc_settings (_data σ) = Some m → auto_save_on m = true →
  (∀ name value, outcome (set_stat name value σ) = Ok tt →
     persisted (after (set_stat name value σ))) ∧
  (∀ name delta, outcome (update_stat name delta σ) = Ok tt →
     persisted (after (update_stat name delta σ))) ∧
  (∀ n c q w, outcome (add_item n c q w σ) = Ok tt →
     persisted (after (add_item n c q w σ))) ∧
  (∀ o n c q w, outcome (update_item o n c q w σ) = Ok true →
     persisted (after (update_item o n c q w σ))) ∧
  (∀ n, outcome (remove_item n σ) = Ok true → persisted (after (remove_item n σ))) ∧
  (∀ key value, key ≠ "auto_save" → outcome (set_setting key value σ) = Ok tt →
     persisted (after (set_setting key value σ))).
Proof.
  intros E Hon.
  assert (∀ d', doc_settings d' = Some m →
            outcome (auto_save (with_data d' σ)) = Ok tt →
            persisted (after (auto_save (with_data d' σ)))) as Hsaved.
  { intros d' E' Hok. by apply (auto_save_persists _ m). }
  assert (∀ name value, outcome (set_stat name value σ) = Ok tt →
            persisted (after (set_stat name value σ))) as Hset.
  { intros name value. destruct (doc_stats (_data σ)) as [ms|] eqn:Es.
    - rewrite (set_stat_run σ ms) by done. by apply Hsaved.
    - by rewrite set_stat_missing. }
  split_and!.
  - exact Hset.
  - intros name delta. rewrite update_stat_run. apply Hset.
  - intros n c q w. destruct (doc_inventory (_data σ)) as [l|] eqn:El.
    + rewrite (add_item_run σ l) by done. by apply Hsaved.
    + unfold add_item, data_inventory. py_run. by rewrite El.
  - intros o n c q w. destruct (doc_inventory (_data σ)) as [l|] eqn:El.
    + rewrite (update_item_run σ l) by done.
      destruct (list_find _ l) as [[i it]|]; [|done].
      pose proof (Hsaved (set_inventory (<[i:=Item n c q w]> l) (_data σ)) E) as Hs.
      destruct (auto_save _) as [[[]|e] σ']; [|done]. intros _. by apply Hs.
    + unfold update_item, data_inventory. py_run. by rewrite El.
  - intros n. destruct (doc_inventory (_data σ)) as [l|] eqn:El.
    + rewrite (remove_item_run σ l) by done.
      destruct (list_find _ l) as [[i it]|]; [|done].
      pose proof (Hsaved (set_inventory (delete i l) (_data σ)) E) as Hs.
      destruct (auto_save _) as [[[]|e] σ']; [|done]. intros _. by apply Hs.
    + unfold remove_item, data_inventory. py_run. by rewrite El.
  - intros key value Hkey. rewrite (set_setting_run σ m) by done.
    assert (truthy (default (VBool true) (<[key:=value]> m !! "auto_save")) = true) as ->.
    { rewrite lookup_insert_ne by done. exact Hon. }
    apply save_persists.
Qed.

(** X7: a save that fails does not undo the write.  With [auto_save] on
    and a path that cannot be written, [set_stat] raises [IOError], the
    new value is the one the store reads from then on, and nothing is on
    disk; [update_item] on a matching entry raises likewise, with the
    entry already replaced. *)
Theorem a_failed_save_keeps_the_write_in_memory σ m ms name value :
  doc_settings (_data σ) = Some m → auto_save_on m = true →
  fs σ !! filepath σ = Some Dir → doc_stats (_data σ) = Some ms →
  outcome (set_stat name value σ) = Raise IOError ∧
  outcome (get_stat name (after (set_stat name value σ))) = Ok (clamp value) ∧
  fs (after (set_stat name value σ)) = fs σ ∧
  (∀ l o n c q w i it,
     doc_inventory (_data σ) = Some l → list_find (same_name o) l = Some (i, it) →
     outcome (update_item o n c q w σ) = Raise IOError ∧
     doc_inventory (_data (after (update_item o n c q w σ))) =
       Some (<[i := Item n c q w]> l) ∧
     fs (after (update_item o n c q w σ)) = fs σ).
Proof.
  intros E Hon Hdir Es. split_and!.
  - rewrite (set_stat_run σ ms), (auto_save_run _ m), Hon by done.
    by rewrite save_failed_state.
  - rewrite get_stat_run. simpl. rewrite (set_stat_stats σ ms) by done. simpl.
    by rewrite lookup_insert_eq.
  - rewrite (set_stat_run σ ms), (auto_save_run _ m), Hon by done.
    by rewrite save_failed_state.
  - intros l o n c q w i it El Hfind.
    rewrite (update_item_run σ l), Hfind, (auto_save_run _ m), Hon by done.
    by rewrite save_failed_state.
Qed.

(** ** Loading and settings *)

(** X8: creating a store never writes.  Whatever is at the path, and
    whether [DataStore(path)] returns or raises, the file system is left
    as it was found: the default document the store falls back to exists
    in memory only, until a save.  The creation returns, unless the file is
    there and [json.load] raises on it something else than
    [JSONDecodeError] and [IOError]; that error is then raised. *)
Theorem creating_a_store_writes_nothing path files time :
  fs (after (__init__ path files time)) = files ∧
  filepath (after (__init__ path files time)) = path ∧
  (outcome (__init__ path files time) = Ok tt ∨
   ∃ t, files !! path = Some (File t) ∧ json_load t = None ∧
        handled_by_load (json_load_raises t) = false ∧
        outcome (__init__ path files time) = Raise (json_load_raises t)) ∧
  (files !! path = None ∨ files !! path = Some Dir ∨
   (∃ t, files !! path = Some (File t) ∧ json_load t = None ∧
         handled_by_load (json_load_raises t) = true) →
   outcome (__init__ path files time) = Ok tt ∧
   _data (after (__init__ path files time)) = default_document (pretty time)).
Proof.
  rewrite __init___run.
  destruct (files !! path) as [[t|]|] eqn:E.
  - destruct (json_load t) as [d|] eqn:Ht.
    + rewrite (_load_parsed _ t d) by done. simpl. split_and!; [done | done | by left |].
      intros [? | [? | (t' & [= <-] & Ht' & _)]]; congruence.
    + destruct (handled_by_load (json_load_raises t)) eqn:Hh.
      * rewrite (_load_unparsable _ t) by done. simpl.
        split_and!; [done | done | by left | done].
      * rewrite (_load_uncaught _ t) by done. simpl.
        split_and!; [done | done | right; by exists t |].
        intros [? | [? | (t' & [= <-] & _ & Hh')]]; congruence.
  - rewrite _load_unreadable by done. simpl. split_and!; [done | done | by left | done].
  - rewrite _load_absent by done. simpl. split_and!; [done | done | by left | done].
Qed.

(** X9: a setting reads back as written.  After [set_setting key value],
    whether or not the save that may follow succeeds, [get_setting key] is
    [value], every other key reads as before, and the stats and the
    inventory are untouched; a key that was never set reads as [None]. *)
Theorem get_setting_after_set_setting σ m key value :
  doc_settings (_data σ) = Some m →
  outcome (get_setting key (after (set_setting key value σ))) = Ok value ∧
  (∀ other, other ≠ key →
     outcome (get_setting other (after (set_setting key value σ))) =
     outcome (get_setting other σ)) ∧
  doc_stats (_data (after (set_setting key value σ))) = doc_stats (_data σ) ∧
  doc_inventory (_data (after (set_setting key value σ))) = doc_inventory (_data σ) ∧
  (m !! key = None → outcome (get_setting key σ) = Ok VNone).
Proof.
  intros E.
  assert (doc_settings (_data (after (set_setting key value σ))) =
          Some (<[key := value]> m)) as E'.
  { rewrite (set_setting_run σ m) by done.
    destruct (truthy _); [by rewrite save_data | done]. }
  assert (∀ k σ0, get_setting k σ0 =
            (Ok (default VNone (default ∅ (doc_settings (_data σ0)) !! k)), σ0)) as Hget
    by reflexivity.
  split_and!.
  - rewrite Hget, E'. simpl. by rewrite lookup_insert_eq.
  - intros other Hne. rewrite !Hget, E', E. simpl. by rewrite lookup_insert_ne.
  - apply set_setting_stats.
  - rewrite (set_setting_run σ m) by done.
    destruct (truthy _); [by rewrite save_data | done].
  - intros Hnone. rewrite Hget, E. simpl. by rewrite Hnone.
Qed.

(** ** Looking items up after a change *)

Lemma same_name_is_nocase name it : same_name name it → same_name_nocase name it.
Proof. unfold same_name, same_name_nocase. by intros ->. Qed.

Lemma get_item_outcome σ l name :
  doc_inventory (_data σ) = Some l →
  outcome (get_item name σ) = Ok (snd <$> list_find (same_name name) l).
Proof. intros E. by rewrite (get_item_run σ l). Qed.

Lemma list_find_delete_other {A} (P : A → Prop) `{∀ x, Decision (P x)}
    (l : list A) i x :
  l !! i = Some x → ¬ P x →
  snd <$> list_find P (delete i l) = snd <$> list_find P l.
Proof.
  revert i. induction l as [|y l IH]; intros [|i] Hi Hx; simplify_eq/=.
  - rewrite decide_False by done. by destruct (list_find P l) as [[??]|].
  - destruct (decide (P y)); [done|].
    specialize (IH i Hi Hx).
    destruct (list_find P (delete i l)) as [[??]|],
             (list_find P l) as [[??]|]; simplify_eq/=; done.
Qed.

(** X10: what [get_item] finds after [add_item].  When no entry had the
    name up to case, or the first such entry had exactly the name,
    [get_item name] returns the entry with the given fields.  When the
    first such entry is spelled otherwise and names are unique up to case,
    the fields are stored under the old spelling and [get_item name] finds
    nothing. *)
Theorem get_item_after_add_item σ l name category quantity weight :
  doc_inventory (_data σ) = Some l →
  ((∀ it, it ∈ l → ¬ same_name_nocase name it) →
     outcome (get_item name (after (add_item name category quantity weight σ))) =
     Ok (Some (Item name category quantity weight))) ∧
  (∀ i it, list_find (same_name_nocase name) l = Some (i, it) → i_name it = name →
     outcome (get_item name (after (add_item name category quantity weight σ))) =
     Ok (Some (Item name category quantity weight))) ∧
  (∀ i it, list_find (same_name_nocase name) l = Some (i, it) → i_name it ≠ name →
     names_unique_nocase l →
     outcome (get_item name (after (add_item name category quantity weight σ))) =
       Ok None ∧
     outcome (get_item (i_name it) (after (add_item name category quantity weight σ))) =
       Ok (Some (Item (i_name it) category quantity weight))).
Proof.
  intros E.
  pose proof (add_item_inventory σ l name category quantity weight E) as E'.
  split_and!.
  - intros Hnone.
    assert (list_find (same_name_nocase name) l = None) as Hfind.
    { apply list_find_None, Forall_forall. done. }
    rewrite Hfind in E'. rewrite (get_item_outcome _ _ _ E').
    assert (list_find (same_name name) (l ++ [Item name category quantity weight])
            = Some (length l, Item name category quantity weight)) as ->; [|done].
    apply list_find_Some. split_and!.
    + by apply list_lookup_middle.
    + done.
    + intros j y Hj Hlt Hy. rewrite lookup_app_l in Hj by done.
      apply (Hnone y); [by eapply list_elem_of_lookup_2 | by apply same_name_is_nocase].
  - intros i it Hfind Hname. rewrite Hfind in E'.
    rewrite (get_item_outcome _ _ _ E'). rewrite Hname.
    apply list_find_Some in Hfind as (Hi & _ & Hfirst).
    assert (list_find (same_name name) (<[i:=Item name category quantity weight]> l)
            = Some (i, Item name category quantity weight)) as ->; [|done].
    apply list_find_Some. split_and!.
    + apply list_lookup_insert_eq. by eapply lookup_lt_Some.
    + done.
    + intros j y Hj Hlt Hy. rewrite list_lookup_insert_ne in Hj by lia.
      apply (Hfirst j y Hj Hlt). by apply same_name_is_nocase.
  - intros i it Hfind Hname Huniq. rewrite Hfind in E'.
    rewrite !(get_item_outcome _ _ _ E').
    apply list_find_Some in Hfind as (Hi & Hit & Hfirst).
    assert (i < length l)%nat as Hlt by (by eapply lookup_lt_Some).
    split.
    + assert (list_find (same_name name)
                (<[i:=Item (i_name it) category quantity weight]> l) = None) as ->; [|done].
      apply list_find_None, Forall_forall. intros y Hy Hyname.
      apply list_elem_of_lookup in Hy as [j Hj].
      apply list_lookup_insert_Some in Hj as [(-> & <- & _) | (Hne & Hj)].
      * by apply Hname.
      * apply Hne. eapply (NoDup_lookup _ i j); [exact Huniq | |].
        -- by rewrite list_lookup_fmap, Hi.
        -- rewrite list_lookup_fmap, Hj. simpl. f_equal.
           unfold same_name_nocase, same_name in *. congruence.
    + assert (list_find (same_name (i_name it))
                (<[i:=Item (i_name it) category quantity weight]> l)
              = Some (i, Item (i_name it) category quantity weight)) as ->; [|done].
      apply list_find_Some. split_and!.
      * by apply list_lookup_insert_eq.
      * done.
      * intros j y Hj Hlt' Hy. rewrite list_lookup_insert_ne in Hj by lia.
        apply (Hfirst j y Hj Hlt'). unfold same_name_nocase, same_name in *. congruence.
Qed.

(** X11: [remove_item] on a name that occurs takes out the first entry
    of exactly that name and nothing else: the inventory is one shorter,
    the entries before it keep their place and the entries after it move
    up by one; it never returns [False].  Every other name is found as
    before, and the name itself is found no more when exact names were
    unique. *)
Theorem remove_item_takes_out_the_first_match σ l name i it :
  doc_inventory (_data σ) = Some l →
  list_find (same_name name) l = Some (i, it) →
  doc_inventory (_data (after (remove_item name σ))) = Some (delete i l) ∧
  S (length (delete i l)) = length l ∧
  (∀ j, (j < i)%nat → delete i l !! j = l !! j) ∧
  (∀ j, (i ≤ j)%nat → delete i l !! j = l !! S j) ∧
  outcome (remove_item name σ) ≠ Ok false ∧
  (∀ other, other ≠ name →
     outcome (get_item other (after (remove_item name σ))) =
     outcome (get_item other σ)) ∧
  (names_unique l → outcome (get_item name (after (remove_item name σ))) = Ok None).
Proof.
  intros E Hfind.
  assert (doc_inventory (_data (after (remove_item name σ))) = Some (delete i l)) as E'.
  { rewrite (remove_item_inventory σ l), Hfind by done.
    by rewrite (list_remove_found l name i it). }
  pose proof Hfind as Hfind'.
  apply list_find_Some in Hfind' as (Hi & Hit & Hfirst).
  assert (i < length l)%nat as Hlt by (by eapply lookup_lt_Some).
  split_and!.
  - exact E'.
  - rewrite length_delete by eauto. lia.
  - intros j Hj. by apply list_lookup_delete_lt.
  - intros j Hj. by apply list_lookup_delete_ge.
  - rewrite (remove_item_false_iff σ l) by done. intros Hnone.
    apply (Hnone it); [by eapply list_elem_of_lookup_2 | done].
  - intros other Hne. rewrite (get_item_outcome _ _ _ E'), (get_item_outcome _ _ _ E).
    f_equal. apply (list_find_delete_other _ _ _ it); [done|].
    unfold same_name in *. congruence.
  - intros Huniq. rewrite (get_item_outcome _ _ _ E').
    assert (list_find (same_name name) (delete i l) = None) as ->; [|done].
    apply list_find_None, Forall_forall. intros y Hy Hyname.
    apply list_elem_of_lookup in Hy as [j Hj].
    destruct (decide (j < i)%nat) as [Hji | Hji].
    + rewrite list_lookup_delete_lt in Hj by done.
      by apply (Hfirst j y Hj Hji).
    + rewrite list_lookup_delete_ge in Hj by lia.
      assert (i = S j); [|lia].
      eapply (NoDup_lookup _ i (S j)); [exact Huniq | |].
      * by rewrite list_lookup_fmap, Hi.
      * rewrite list_lookup_fmap, Hj. simpl. unfold same_name in *. congruence.
Qed.

(** X12: [update_item] on a name that occurs replaces the first entry of
    exactly that name, name included, where it stands; it never returns
    [False].  The new name then finds the new entry unless another entry
    already bore it, and the old name finds nothing when it was changed
    and exact names were unique. *)
Theorem update_item_replaces_the_first_match σ l o n c q w i it :
  doc_inventory (_data σ) = Some l →
  list_find (same_name o) l = Some (i, it) →
  doc_inventory (_data (after (update_item o n c q w σ))) =
    Some (<[i := Item n c q w]> l) ∧
  length (<[i := Item n c q w]> l) = length l ∧
  (∀ j, j ≠ i → <[i := Item n c q w]> l !! j = l !! j) ∧
  outcome (update_item o n c q w σ) ≠ Ok false ∧
  ((∀ j it', l !! j = Some it' → j ≠ i → i_name it' ≠ n) →
     outcome (get_item n (after (update_item o n c q w σ))) = Ok (Some (Item n c q w))) ∧
  (names_unique l → n ≠ o →
     outcome (get_item o (after (update_item o n c q w σ))) = Ok None).
Proof.
  intros E Hfind.
  assert (doc_inventory (_data (after (update_item o n c q w σ))) =
          Some (<[i := Item n c q w]> l)) as E'.
  { by rewrite (update_item_inventory σ l), Hfind. }
  pose proof Hfind as Hfind'.
  apply list_find_Some in Hfind' as (Hi & Hit & Hfirst).
  assert (i < length l)%nat as Hlt by (by eapply lookup_lt_Some).
  split_and!.
  - exact E'.
  - apply length_insert.
  - intros j Hj. by apply list_lookup_insert_ne.
  - rewrite (update_item_false_iff σ l) by done. intros Hnone.
    apply (Hnone it); [by eapply list_elem_of_lookup_2 | done].
  - intros Hfree. rewrite (get_item_outcome _ _ _ E').
    assert (list_find (same_name n) (<[i:=Item n c q w]> l) = Some (i, Item n c q w))
      as ->; [|done].
    apply list_find_Some. split_and!.
    + by apply list_lookup_insert_eq.
    + done.
    + intros j y Hj Hji Hy. rewrite list_lookup_insert_ne in Hj by lia.
      apply (Hfree j y Hj); [lia | done].
  - intros Huniq Hne. rewrite (get_item_outcome _ _ _ E').
    assert (list_find (same_name o) (<[i:=Item n c q w]> l) = None) as ->; [|done].
    apply list_find_None, Forall_forall. intros y Hy Hyname.
    apply list_elem_of_lookup in Hy as [j Hj].
    apply list_lookup_insert_Some in Hj as [(-> & <- & _) | (Hji & Hj)].
    + by apply Hne.
    + apply Hji. eapply (NoDup_lookup _ i j); [exact Huniq | |].
      * by rewrite list_lookup_fmap, Hi.
      * rewrite list_lookup_fmap, Hj. simpl. unfold same_name in *. congruence.
Qed.

Lemma NoDup_insert_fresh {A} (L : list A) i x :
  NoDup L → x ∉ L → NoDup (<[i := x]> L).
Proof.
  intros HL Hx. apply NoDup_alt. intros a b y Ha Hb.
  apply list_lookup_insert_Some in Ha as [(<- & <- & _) | (Hia & Ha)];
    apply list_lookup_insert_Some in Hb as [(<- & Hxy & _) | (Hib & Hb)];
    simplify_eq; try done.
  - destruct Hx. by eapply list_elem_of_lookup_2.
  - destruct Hx. by eapply list_elem_of_lookup_2.
  - by eapply (NoDup_lookup L).
Qed.

(** X13: [update_item] keeps names unique up to case as long as the new
    name is free: when it is the old name up to case, or when no entry
    has it up to case, an inventory without two names equal up to case
    stays so. *)
Theorem update_item_keeps_names_unique_when_the_name_is_free σ l o n c q w :
  doc_inventory (_data σ) = Some l → names_unique_nocase l →
  str_lower n = str_lower o ∨ (∀ it, it ∈ l → ¬ same_name_nocase n it) →
  ∃ l', doc_inventory (_data (after (update_item o n c q w σ))) = Some l' ∧
        names_unique_nocase l'.
Proof.
  intros E Huniq Hfree. eexists. split; [by apply update_item_inventory|].
  destruct (list_find _ l) as [[i it]|] eqn:Hfind; [|done].
  apply list_find_Some in Hfind as (Hi & Hit & _).
  unfold names_unique_nocase in *. rewrite list_fmap_insert. simpl.
  destruct Hfree as [Hsame | Hfree].
  - rewrite list_insert_id; [done|].
    rewrite list_lookup_fmap, Hi. simpl. unfold same_name in Hit. congruence.
  - apply NoDup_insert_fresh; [done|].
    intros Hin. apply list_elem_of_fmap in Hin as (y & Hy & Hyl).
    by apply (Hfree y).
Qed.

(** ** The dashboard and the inventory list *)

Lemma inventory_run σ :
  inventory σ = (Ok (default [] (doc_inventory (_data σ))), σ).
Proof. reflexivity. Qed.

(** X14: the dashboard previews the first three items and no more, in
    their order, and shows the line "No items" instead when the inventory
    is empty or missing from the document; it never raises. *)
Theorem dashboard_previews_the_first_three_items σ :
  ∃ lines,
    DashboardScreen_inventory_items σ = (Ok lines, σ) ∧
    (1 ≤ length lines ≤ 3)%nat ∧
    (default [] (doc_inventory (_data σ)) = [] → lines = ["[dim]No items[/dim]"]) ∧
    (∀ l, doc_inventory (_data σ) = Some l → l ≠ [] →
       length lines = Nat.min 3 (length l) ∧
       ∀ i it, (i < 3)%nat → l !! i = Some it →
         lines !! i = Some ("• " +:+ i_name it +:+ " x" +:+ pretty (i_quantity it))).
Proof.
  unfold DashboardScreen_inventory_items. unfold bind. rewrite inventory_run.
  destruct (default [] (doc_inventory (_data σ))) as [|it0 l0] eqn:El.
  - eexists. split; [reflexivity|]. simpl. split_and!; [lia | lia | done |].
    intros l E Hl. rewrite E in El. simpl in El. done.
  - rewrite bool_decide_eq_false_2 by done.
    eexists. split; [reflexivity|]. split_and!.
    + rewrite length_fmap. simpl. lia.
    + rewrite length_fmap, length_take. lia.
    + done.
    + intros l E Hl. rewrite E in El. simpl in El. subst l.
      split; [by rewrite length_fmap, length_take|].
      intros i it Hi Hit. rewrite list_lookup_fmap, lookup_take_lt by done.
      by rewrite Hit.
Qed.

Lemma selected_item_name_run σ index :
  InventoryScreen_selected_item_name index σ =
  (Ok (match index with
       | Some i =>
           if bool_decide (0 ≤ i < Z.of_nat (length (default [] (doc_inventory (_data σ)))))
           then i_name <$> default [] (doc_inventory (_data σ)) !! Z.to_nat i
           else None
       | None => None
       end), σ).
Proof.
  destruct index as [i|]; [|done]. unfold InventoryScreen_selected_item_name.
  unfold bind. rewrite inventory_run. by destruct (bool_decide _).
Qed.

(** X15: the rows of the inventory list are the items, one row per item
    in the order of the inventory, so that the row that is highlighted
    names the item at the same position.  An empty or missing inventory
    shows the single row "Empty", which selects nothing; an index outside
    the inventory selects nothing either. *)
Theorem inventory_rows_are_the_items σ :
  ∃ rows,
    InventoryScreen_inventory_items σ = (Ok rows, σ) ∧
    (default [] (doc_inventory (_data σ)) = [] →
       rows = ["[dim]Empty[/dim]"] ∧
       ∀ index, InventoryScreen_selected_item_name index σ = (Ok None, σ)) ∧
    (default [] (doc_inventory (_data σ)) ≠ [] →
       length rows = length (default [] (doc_inventory (_data σ)))) ∧
    (∀ i it, default [] (doc_inventory (_data σ)) !! i = Some it →
       rows !! i = Some (i_name it +:+ " [" +:+ i_category it +:+ "] x"
                           +:+ pretty (i_quantity it)) ∧
       InventoryScreen_selected_item_name (Some (Z.of_nat i)) σ =
         (Ok (Some (i_name it)), σ)) ∧
    (∀ i, i < 0 ∨ Z.of_nat (length (default [] (doc_inventory (_data σ)))) ≤ i →
       InventoryScreen_selected_item_name (Some i) σ = (Ok None, σ)).
Proof.
  unfold InventoryScreen_inventory_items. unfold bind. rewrite inventory_run.
  assert (∀ i it, default [] (doc_inventory (_data σ)) !! i = Some it →
            InventoryScreen_selected_item_name (Some (Z.of_nat i)) σ =
            (Ok (Some (i_name it)), σ)) as Hsel.
  { intros i it Hi. rewrite selected_item_name_run.
    apply lookup_lt_Some in Hi as Hlt.
    rewrite bool_decide_eq_true_2 by lia. by rewrite Nat2Z.id, Hi. }
  assert (∀ i, i < 0 ∨ Z.of_nat (length (default [] (doc_inventory (_data σ)))) ≤ i →
            InventoryScreen_selected_item_name (Some i) σ = (Ok None, σ)) as Hout.
  { intros i Hi. rewrite selected_item_name_run.
    by rewrite bool_decide_eq_false_2 by lia. }
  destruct (default [] (doc_inventory (_data σ))) as [|it0 l0] eqn:El.
  - eexists. split; [reflexivity|]. split_and!; try done.
    intros _. split; [done|]. intros [i|]; [|done].
    rewrite selected_item_name_run, El. simpl.
    by rewrite bool_decide_eq_false_2 by lia.
  - rewrite bool_decide_eq_false_2 by done.
    eexists. split; [reflexivity|]. split_and!; try done.
    + intros _. by rewrite length_fmap.
    + intros i it Hi. split; [|by apply Hsel].
      by rewrite list_lookup_fmap, Hi.
Qed.

Lemma selected_item_is_found σ index n :
  outcome (InventoryScreen_selected_item_name index σ) = Ok (Some n) →
  ∃ l j it, doc_inventory (_data σ) = Some l ∧
            list_find (same_name n) l = Some (j, it) ∧ i_name it = n.
Proof.
  rewrite selected_item_name_run. simpl. destruct index as [i|]; [|done].
  destruct (bool_decide _); [|done].
  destruct (doc_inventory (_data σ)) as [l|]; simpl; [|done].
  destruct (l !! Z.to_nat i) as [it0|] eqn:Hi; simpl; [|done].
  intros [= <-].
  destruct (list_find_elem_of (same_name (i_name it0)) l it0) as [[j it] Hfind].
  { by eapply list_elem_of_lookup_2. }
  { done. }
  exists l, j, it. split_and!; [done..|].
  by apply list_find_Some in Hfind as (_ & ? & _).
Qed.

Lemma compose_over_found_item σ l n j it s :
  doc_inventory (_data σ) = Some l →
  list_find (same_name n) l = Some (j, it) →
  s = ItemDetailScreen n ∨ (s = ItemEditorModal (Some n) ∧ PyStr.nonempty n = true)
    ∨ s = DeleteItemModal n →
  compose s σ = (Ok tt, σ).
Proof.
  intros E Hfind [-> | [(-> & Hn) | ->]]; unfold compose; [| |done].
  - unfold discard, ItemDetailScreen_compose, bind.
    by rewrite (get_item_run σ l), Hfind.
  - unfold discard, ItemEditorModal_compose. rewrite Hn. unfold bind.
    by rewrite (get_item_run σ l), Hfind.
Qed.

(** X16: the inventory screen opens the detail screen, the editor and
    the delete dialog only on an item that is there.  Whatever row index
    the list reports, each of the three actions returns, leaves the store
    alone, and pushes either nothing or one screen whose item [get_item]
    finds, so that composing it succeeds: the editor opened from the list
    does not meet a missing item. *)
Theorem inventory_actions_open_screens_on_present_items σ index action :
  action = InventoryScreen_action_view_item index ∨
  action = InventoryScreen_action_edit_item index ∨
  action = InventoryScreen_action_delete_item index →
  ∃ calls,
    action σ = (Ok calls, σ) ∧
    (calls = [] ∨
     ∃ s, calls = [push_screen s] ∧ compose s σ = (Ok tt, σ)) ∧
    (default [] (doc_inventory (_data σ)) = [] → calls = []).
Proof.
  intros Haction.
  pose proof (selected_item_is_found σ index) as Hfound.
  pose proof (selected_item_name_run σ index) as Hrun.
  assert (default [] (doc_inventory (_data σ)) = [] →
          InventoryScreen_selected_item_name index σ = (Ok None, σ)) as Hempty.
  { intros El. rewrite Hrun, El. destruct index as [i|]; [|done]. simpl.
    by rewrite bool_decide_eq_false_2 by lia. }
  destruct (InventoryScreen_selected_item_name index σ) as [r σ'] eqn:Hsel.
  injection Hrun as -> ->. simpl in Hfound.
  match type of Hsel with _ = (Ok ?sel, _) => set (selected := sel) in * end.
  destruct selected as [n|] eqn:Hn.
  - destruct (Hfound n eq_refl) as (l & j & it & E & Hfind & _).
    destruct (PyStr.nonempty n) eqn:Hne.
    + destruct Haction as [-> | [-> | ->]];
        unfold InventoryScreen_action_view_item, InventoryScreen_action_edit_item,
          InventoryScreen_action_delete_item; unfold bind; rewrite Hsel; simpl;
        rewrite Hne; eexists; (split; [reflexivity|]); split.
      * right. eexists. split; [done|]. eapply compose_over_found_item; eauto.
      * intros El. specialize (Hempty El). by simplify_eq.
      * right. eexists. split; [done|]. eapply compose_over_found_item; eauto.
      * intros El. specialize (Hempty El). by simplify_eq.
      * right. eexists. split; [done|]. eapply compose_over_found_item; eauto.
      * intros El. specialize (Hempty El). by simplify_eq.
    + destruct Haction as [-> | [-> | ->]];
        unfold InventoryScreen_action_view_item, InventoryScreen_action_edit_item,
          InventoryScreen_action_delete_item; unfold bind; rewrite Hsel; simpl;
        rewrite Hne; eexists; (split; [reflexivity|]); split; auto.
  - destruct Haction as [-> | [-> | ->]];
      unfold InventoryScreen_action_view_item, InventoryScreen_action_edit_item,
        InventoryScreen_action_delete_item; unfold bind; rewrite Hsel; simpl;
      eexists; (split; [reflexivity|]); split; auto.
Qed.

(** ** The buttons of the stats screen *)

Lemma rsplit1_without sep s :
  PyText.contains sep s = false → PyText.rsplit1 sep s = None.
Proof.
  induction s as [|c s IH]; simpl; [done|].
  intros [Hc Hs]%orb_false_iff. rewrite IH by done.
  apply bool_decide_eq_false in Hc. by rewrite decide_False.
Qed.

Lemma rsplit1_last sep before after_sep :
  PyText.contains sep after_sep = false →
  PyText.rsplit1 sep (before +:+ String sep after_sep) = Some (before, after_sep).
Proof.
  intros Hafter. induction before as [|c before IH]; simpl.
  - rewrite rsplit1_without by done. by rewrite decide_True.
  - by rewrite IH.
Qed.

Lemma contains_last sep before after_sep :
  PyText.contains sep (before +:+ String sep after_sep) = true.
Proof.
  induction before as [|c before IH]; simpl.
  - by rewrite bool_decide_eq_true_2.
  - rewrite IH. by destruct (bool_decide _).
Qed.

Lemma nonempty_last before c after_c :
  PyStr.nonempty (before +:+ String c after_c) = true.
Proof. by destruct before. Qed.

Lemma update_values_run stats σ :
  ∃ calls, update_values stats σ = (Ok calls, σ) ∧ length calls = length stats.
Proof.
  induction stats as [|stat stats (calls & IH & Hlen)]; simpl.
  - by exists [].
  - unfold bind. rewrite get_stat_run, IH. simpl. eexists. split; [done|].
    simpl. by rewrite Hlen.
Qed.

(** X17: the identifier the stats screen gives a button is read back to
    the stat it was made from.  Whatever the name of the stat, underscores
    included, pressing its "+" button is [update_stat] of that stat by 5
    and pressing its "-" button by -5, followed by the refresh of the four
    values; an identifier without an underscore touches nothing. *)
Theorem stat_buttons_change_their_stat_by_five σ stat :
  StatsScreen_on_button_pressed (Some (stat_inc_button stat)) σ =
    bind (update_stat stat 5) (λ _, StatsScreen_update_display) σ ∧
  StatsScreen_on_button_pressed (Some (stat_dec_button stat)) σ =
    bind (update_stat stat (-5)) (λ _, StatsScreen_update_display) σ ∧
  after (StatsScreen_on_button_pressed (Some (stat_inc_button stat)) σ) =
    after (update_stat stat 5 σ) ∧
  after (StatsScreen_on_button_pressed (Some (stat_dec_button stat)) σ) =
    after (update_stat stat (-5) σ) ∧
  (∀ ms, doc_stats (_data σ) = Some ms →
     outcome (get_stat stat
                (after (StatsScreen_on_button_pressed (Some (stat_inc_button stat)) σ))) =
       Ok (clamp (default 0 (ms !! stat) + 5)) ∧
     outcome (get_stat stat
                (after (StatsScreen_on_button_pressed (Some (stat_dec_button stat)) σ))) =
       Ok (clamp (default 0 (ms !! stat) - 5))) ∧
  (∀ id, PyText.contains "_" id = false →
     StatsScreen_on_button_pressed (Some id) σ = (Ok [], σ)) ∧
  StatsScreen_on_button_pressed None σ = (Ok [], σ).
Proof.
  assert (StatsScreen_on_button_pressed (Some (stat_inc_button stat)) σ =
          bind (update_stat stat 5) (λ _, StatsScreen_update_display) σ) as Hinc.
  { unfold StatsScreen_on_button_pressed, stat_inc_button.
    rewrite nonempty_last, contains_last, rsplit1_last by done. reflexivity. }
  assert (StatsScreen_on_button_pressed (Some (stat_dec_button stat)) σ =
          bind (update_stat stat (-5)) (λ _, StatsScreen_update_display) σ) as Hdec.
  { unfold StatsScreen_on_button_pressed, stat_dec_button.
    rewrite nonempty_last, contains_last, rsplit1_last by done. reflexivity. }
  assert (∀ delta, after (bind (update_stat stat delta)
                            (λ _, StatsScreen_update_display) σ) =
                   after (update_stat stat delta σ)) as Hafter.
  { intros delta. unfold bind. destruct (update_stat stat delta σ) as [[[]|e] σ']; [|done].
    unfold StatsScreen_update_display.
    by destruct (update_values_run stat_names σ') as (calls & -> & _). }
  split_and!.
  - exact Hinc.
  - exact Hdec.
  - by rewrite Hinc, Hafter.
  - by rewrite Hdec, Hafter.
  - intros ms E. rewrite Hinc, Hdec, !Hafter, !get_stat_run. simpl.
    rewrite !(update_stat_stats σ ms) by done. simpl.
    rewrite !lookup_insert_eq. simpl. split; do 2 f_equal; lia.
  - intros id Hid. unfold StatsScreen_on_button_pressed. rewrite Hid.
    by rewrite andb_false_r.
  - done.
Qed.

(** ** The item editor *)

Lemma nonempty_iff s : PyStr.nonempty s = true ↔ s ≠ "".
Proof. by destruct s. Qed.

(** X18: what the editor accepts.  A name of which [strip] leaves nothing
    stores nothing and leaves the editor open, whether an item is created
    or edited.  Any other name, when an item is created, goes to
    [add_item] stripped, with "Uncategorized" for a category of which
    [strip] leaves nothing, 1 for a quantity [int] rejects and 0.0 for a
    weight [float] rejects; the editor closes when [add_item] returns, and
    what [add_item] raises is raised. *)
Theorem editor_rejects_a_blank_name_and_fills_in_the_rest
    σ item_name name_input category_input quantity_input weight_input :
  (str_strip name_input = "" →
     ItemEditorModal_save_item item_name name_input category_input
       quantity_input weight_input σ = (Ok [], σ)) ∧
  (str_strip name_input ≠ "" → str_truthy item_name = false →
     let category :=
       if bool_decide (str_strip category_input = "") then "Uncategorized"
       else str_strip category_input in
     let quantity := default 1 (py_int quantity_input) in
     let weight := default (Float "0.0") (py_float weight_input) in
     after (ItemEditorModal_save_item item_name name_input category_input
              quantity_input weight_input σ) =
       after (add_item (str_strip name_input) category quantity weight σ) ∧
     (outcome (add_item (str_strip name_input) category quantity weight σ) = Ok tt →
      outcome (ItemEditorModal_save_item item_name name_input category_input
                 quantity_input weight_input σ) = Ok [dismiss; refresh_inventory]) ∧
     (∀ e, outcome (add_item (str_strip name_input) category quantity weight σ) = Raise e →
      outcome (ItemEditorModal_save_item item_name name_input category_input
                 quantity_input weight_input σ) = Raise e)).
Proof.
  split.
  - intros Hblank. unfold ItemEditorModal_save_item. by rewrite Hblank.
  - intros Hname Hcreate. unfold ItemEditorModal_save_item.
    assert (PyStr.nonempty (str_strip name_input) = true) as ->
      by (by apply nonempty_iff).
    assert ((if PyStr.nonempty (str_strip category_input)
             then str_strip category_input else "Uncategorized") =
            (if bool_decide (str_strip category_input = "") then "Uncategorized"
             else str_strip category_input)) as ->.
    { by destruct (str_strip category_input). }
    rewrite Hcreate. simpl. unfold bind, ret.
    destruct (add_item _ _ _ _ σ) as [[[]|e] σ']; simpl.
    + by split_and!.
    + split_and!; [done | done |]. intros e0 He. by injection He as ->.
Qed.

(** X19: an edit of an item that is gone is dropped without a word.  When
    the editor was opened on a name no entry bears any more and [strip]
    leaves something of the name in the form, saving changes nothing in
    the store, raises nothing, and closes the editor as after a successful
    edit. *)
Theorem editor_drops_the_edit_of_a_missing_item
    σ l original name_input category_input quantity_input weight_input :
  doc_inventory (_data σ) = Some l →
  (∀ it, it ∈ l → i_name it ≠ original) →
  PyStr.nonempty original = true →
  str_strip name_input ≠ "" →
  ItemEditorModal_save_item (Some original) name_input category_input
    quantity_input weight_input σ = (Ok [dismiss; refresh_inventory], σ).
Proof.
  intros E Hmiss Horiginal Hname. unfold ItemEditorModal_save_item.
  assert (PyStr.nonempty (str_strip name_input) = true) as ->
    by (by apply nonempty_iff).
  simpl. rewrite Horiginal. unfold discard, bind.
  rewrite (update_item_run σ l) by done.
  apply list_find_same_name_None in Hmiss. by rewrite Hmiss.
Qed.

Lemma item_dict_lookups it :
  item_dict it !! "name" = Some (VStr (i_name it)) ∧
  item_dict it !! "category" = Some (VStr (i_category it)) ∧
  item_dict it !! "quantity" = Some (VInt (i_quantity it)) ∧
  item_dict it !! "weight" = Some (VFloat (i_weight it)).
Proof.
  unfold item_dict. split_and!.
  - by rewrite lookup_insert_eq.
  - rewrite lookup_insert_ne by done. by rewrite lookup_insert_eq.
  - rewrite !lookup_insert_ne by done. by rewrite lookup_insert_eq.
  - rewrite !lookup_insert_ne by done. by rewrite lookup_insert_eq.
Qed.

(** X20: opening the editor on an item and saving the form as it was
    shown leaves the inventory as it is.  This needs what the form does to
    its fields to be harmless for this item: a name and a category
    that [strip] leaves as they are and that are not empty, a quantity
    [int] reads back from its text, a weight [float] reads back from its
    text. *)
Theorem editor_shows_an_item_and_saves_it_back
    σ l i it :
  doc_inventory (_data σ) = Some l →
  list_find (same_name (i_name it)) l = Some (i, it) →
  PyStr.nonempty (i_name it) = true → str_strip (i_name it) = i_name it →
  PyStr.nonempty (i_category it) = true → str_strip (i_category it) = i_category it →
  py_int (pretty (i_quantity it)) = Some (i_quantity it) →
  py_float (float_repr (i_weight it)) = Some (i_weight it) →
  ItemEditorModal_compose (Some (i_name it)) σ =
    (Ok [ VStr (i_name it); VStr (i_category it);
          VStr (pretty (i_quantity it)); VStr (float_repr (i_weight it)) ], σ) ∧
  doc_inventory
    (_data (after (ItemEditorModal_save_item (Some (i_name it))
                     (i_name it) (i_category it)
                     (pretty (i_quantity it)) (float_repr (i_weight it)) σ))) =
    Some l.
Proof.
  intros E Hfind Hn Hns Hc Hcs Hq Hw. split.
  - unfold ItemEditorModal_compose. rewrite Hn. unfold bind.
    rewrite (get_item_run σ l), Hfind by done. simpl.
    destruct (item_dict_lookups it) as (H1 & H2 & H3 & H4).
    unfold item_get, ret. by rewrite H1, H2, H3, H4.
  - unfold ItemEditorModal_save_item. rewrite Hns, Hcs, Hn, Hc, Hq, Hw. simpl.
    rewrite Hn.
    assert (∀ c : M bool, doc_inventory (_data (after (bind (discard c)
              (λ _, ret [dismiss; refresh_inventory]) σ))) =
              doc_inventory (_data (after (c σ)))) as ->.
    { intros c. unfold discard, bind, ret. by destruct (c σ) as [[?|?] ?]. }
    rewrite (update_item_inventory σ l), Hfind by done.
    apply list_find_Some in Hfind as (Hi & _ & _).
    f_equal. apply list_insert_id. rewrite Hi. by destruct it.
Qed.

(** ** The settings screen and the delete dialog *)

(** X21: the label of the settings screen and the store read the
    [auto_save] setting with different defaults.  When the label says
    "ON" every mutator saves.  When the settings do not hold the key the
    label says "OFF" and every mutator saves all the same. *)
Theorem settings_label_and_store_default_differently σ m :
  doc_settings (_data σ) = Some m →
  (∃ lines, SettingsScreen_compose σ = (Ok lines, σ) ∧ length lines = 2%nat) ∧
  (∀ lines, outcome (SettingsScreen_compose σ) = Ok lines →
     lines !! 1%nat = Some "Auto-save: ON" → auto_save σ = save σ) ∧
  (m !! "auto_save" = None →
     (∀ lines, outcome (SettingsScreen_compose σ) = Ok lines →
        lines !! 1%nat = Some "Auto-save: OFF") ∧
     auto_save σ = save σ) ∧
  (m !! "device_name" = None →
     ∀ lines, outcome (SettingsScreen_compose σ) = Ok lines →
       lines !! 0%nat = Some "Name: WristComp").
Proof.
  intros E.
  assert (SettingsScreen_compose σ =
          (Ok [ "Name: " +:+ py_str (default (VStr "WristComp") (m !! "device_name"));
                "Auto-save: " +:+ (if truthy (default VNone (m !! "auto_save"))
                                   then "ON" else "OFF") ], σ)) as Hrun.
  { unfold SettingsScreen_compose, settings. py_run. by rewrite E. }
  rewrite Hrun. simpl. split_and!.
  - by eexists.
  - intros lines [= <-]. simpl. rewrite (auto_save_run σ m) by done.
    unfold auto_save_on. destruct (m !! "auto_save") as [v|]; simpl; [|done].
    by destruct (truthy v).
  - intros Hnone. rewrite (auto_save_run σ m) by done. unfold auto_save_on.
    rewrite Hnone. simpl. split; [|done]. by intros lines [= <-].
  - intros Hnone lines [= <-]. by rewrite Hnone.
Qed.

(** X22: the delete dialog.  "Cancel" closes it and leaves the store
    alone.  "Delete" takes out the first entry of exactly the name the
    dialog was opened with; when no entry bears the name any more it
    removes nothing, raises nothing and closes all the same. *)
Theorem delete_dialog_removes_the_item_or_nothing σ l item_name :
  doc_inventory (_data σ) = Some l →
  DeleteItemModal_on_button_pressed item_name (Some "btn_cancel") σ = (Ok [dismiss], σ) ∧
  ((∀ it, it ∈ l → i_name it ≠ item_name) →
     DeleteItemModal_on_button_pressed item_name (Some "btn_delete") σ =
     (Ok [dismiss; refresh_inventory], σ)) ∧
  (∀ i it, list_find (same_name item_name) l = Some (i, it) →
     doc_inventory
       (_data (after (DeleteItemModal_on_button_pressed item_name (Some "btn_delete") σ)))
       = Some (delete i l) ∧
     (outcome (remove_item item_name σ) = Ok true →
      outcome (DeleteItemModal_on_button_pressed item_name (Some "btn_delete") σ) =
        Ok [dismiss; refresh_inventory])).
Proof.
  intros E. split_and!.
  - done.
  - intros Hmiss. unfold DeleteItemModal_on_button_pressed. simpl.
    unfold discard, bind. rewrite (remove_item_run σ l) by done.
    apply list_find_same_name_None in Hmiss. by rewrite Hmiss.
  - intros i it Hfind. unfold DeleteItemModal_on_button_pressed. simpl.
    unfold discard, bind, ret.
    pose proof (remove_item_inventory σ l item_name E) as Hinv.
    rewrite Hfind, (list_remove_found l item_name i it) in Hinv by done.
    destruct (remove_item item_name σ) as [[b|e] σ']; simpl in *; [|done].
    done.
Qed.

End MoreProperties.

(** * More properties on concrete stores *)

Section MoreOnConcreteStores.

#[local] Existing Instance ascii_strings.

Lemma quiet_state :
  ExampleUI.quiet =
  State DATA_FILE
    (set_settings (<["auto_save" := VBool false]> default_settings)
       (set_last_updated "1" (default_document "0")))
    {[ DATA_FILE :=
         @File Example.J (PlainJson.Dumped (set_last_updated "1" (default_document "0"))) ]}
    2.
Proof.
  unfold ExampleUI.quiet. rewrite saved_state.
  rewrite (set_setting_run _ default_settings) by done.
  by rewrite lookup_insert_eq.
Qed.

Lemma fresh_inventory :
  doc_inventory (_data Example.fresh) = Some default_inventory.
Proof. by rewrite fresh_state. Qed.

Lemma fresh_stats : doc_stats (_data Example.fresh) = Some default_stats.
Proof. by rewrite fresh_state. Qed.

Lemma fresh_settings : doc_settings (_data Example.fresh) = Some default_settings.
Proof. by rewrite fresh_state. Qed.

Lemma fresh_writable : fs Example.fresh !! filepath Example.fresh ≠ Some Dir.
Proof. rewrite fresh_state. simpl. by rewrite lookup_empty. Qed.

Lemma default_names_unique_nocase : names_unique_nocase default_inventory.
Proof. unfold names_unique_nocase. apply (bool_decide_unpack _). by vm_compute. Qed.

Lemma default_names_unique : names_unique default_inventory.
Proof. unfold names_unique. apply (bool_decide_unpack _). by vm_compute. Qed.


Lemma reset_all_restores_the_default_document_witness :
  doc_inventory (_data Example.without_inventory) = None ∧
  _data (after (reset_all Example.without_inventory)) = default_document "2" ∧
  outcome (reset_all Example.without_inventory) = Ok tt ∧
  persisted (after (reset_all Example.without_inventory)).
Proof.
  destruct (reset_all_restores_the_default_document Example.without_inventory)
    as (Hdata & _ & Hsave & _ & _ & Hsaved).
  assert (outcome (reset_all Example.without_inventory) = Ok tt) as Hok.
  { rewrite Hsave. apply save_ok_iff. rewrite without_inventory_state. simpl.
    by rewrite lookup_singleton_eq. }
  split_and!.
  - by rewrite without_inventory_state.
  - by rewrite Hdata, without_inventory_state.
  - exact Hok.
  - by apply Hsaved.
Defined.

Lemma repeated_update_stat_adds_up_to_the_bound_witness :
  outcome (get_stat "energy" (update_stat_times 10 "energy" 5 Example.fresh)) = Ok 100%Z ∧
  outcome (get_stat "energy" (update_stat_times 3 "energy" 5 Example.fresh)) = Ok 95%Z ∧
  outcome (get_stat "stress" (update_stat_times 7 "stress" (-5) Example.fresh)) = Ok 0%Z.
Proof.
  split_and!.
  - rewrite (repeated_update_stat_adds_up_to_the_bound
               Example.fresh default_stats "energy" 5 10 80 fresh_stats); [done..|lia].
  - rewrite (repeated_update_stat_adds_up_to_the_bound
               Example.fresh default_stats "energy" 5 3 80 fresh_stats); [done..|lia].
  - rewrite (repeated_update_stat_adds_up_to_the_bound
               Example.fresh default_stats "stress" (-5) 7 25 fresh_stats); [done..|lia].
Defined.

Lemma a_stat_write_touches_one_stat_witness :
  outcome (get_stat "stress" (after (set_stat "energy" 50 Example.fresh))) = Ok 25%Z ∧
  outcome (get_stat "mood" (after (update_stat "mood" 7 Example.fresh))) = Ok 7%Z.
Proof.
  destruct (a_stat_write_touches_one_stat Example.fresh default_stats "energy" 50
              fresh_stats) as (Hother & _).
  destruct (a_stat_write_touches_one_stat Example.fresh default_stats "mood" 7
              fresh_stats) as (_ & _ & _ & _ & Hnew).
  split.
  - rewrite Hother by done. by rewrite fresh_state.
  - by rewrite Hnew.
Defined.

Lemma with_auto_save_off_nothing_is_written_witness :
  fs (perform_all
        [ CallSetStat "energy" 5; CallAddItem "Pen" "Essentials" 1 (Float "0.01");
          CallRemoveItem "Keys"; CallSetSetting "compact_mode" (VBool true) ]
        ExampleUI.quiet) = fs ExampleUI.quiet.
Proof.
  apply (with_auto_save_off_nothing_is_written ExampleUI.quiet
           (<["auto_save" := VBool false]> default_settings)).
  - by rewrite quiet_state.
  - unfold auto_save_on. by rewrite lookup_insert_eq.
  - repeat constructor.
Defined.

Lemma with_auto_save_on_a_returned_mutation_is_on_disk_witness :
  outcome (set_stat "energy" 50 Example.fresh) = Ok tt ∧
  persisted (after (set_stat "energy" 50 Example.fresh)).
Proof.
  assert (outcome (set_stat "energy" 50 Example.fresh) = Ok tt) as Hok.
  { rewrite (set_stat_run _ default_stats) by apply fresh_stats.
    rewrite (auto_save_run _ default_settings) by (by rewrite fresh_state).
    assert (auto_save_on default_settings = true) as -> by done.
    apply save_ok_iff. rewrite fresh_state. simpl. by rewrite lookup_empty. }
  split; [exact Hok|].
  destruct (with_auto_save_on_a_returned_mutation_is_on_disk
              Example.fresh default_settings fresh_settings eq_refl) as (Hset & _).
  by apply Hset.
Defined.

Lemma a_failed_save_keeps_the_write_in_memory_witness :
  outcome (set_stat "energy" 50 ExampleUI.blocked) = Raise IOError ∧
  outcome (get_stat "energy" (after (set_stat "energy" 50 ExampleUI.blocked))) = Ok 50%Z ∧
  fs (after (set_stat "energy" 50 ExampleUI.blocked)) = fs ExampleUI.blocked.
Proof.
  destruct (a_failed_save_keeps_the_write_in_memory
              ExampleUI.blocked default_settings default_stats "energy" 50)
    as (H1 & H2 & H3 & _); done.
Defined.

Lemma creating_a_store_writes_nothing_witness :
  fs (after (__init__ DATA_FILE Example.no_files 0)) = Example.no_files ∧
  outcome (__init__ DATA_FILE Example.no_files 0) = Ok tt ∧
  _data (after (__init__ DATA_FILE Example.no_files 0)) = default_document "0" ∧
  outcome (__init__ DATA_FILE Example.truncated_file 0) = Ok tt ∧
  fs (after (__init__ DATA_FILE Example.truncated_file 0)) = Example.truncated_file ∧
  fs (after (__init__ DATA_FILE Example.undecodable_file 0)) = Example.undecodable_file.
Proof.
  destruct (creating_a_store_writes_nothing DATA_FILE Example.no_files 0%nat)
    as (Hfs & _ & _ & Hdefault).
  destruct (creating_a_store_writes_nothing DATA_FILE Example.truncated_file 0%nat)
    as (Hfs' & _ & _ & Hdefault').
  destruct (creating_a_store_writes_nothing DATA_FILE Example.undecodable_file 0%nat)
    as (Hfs'' & _).
  destruct Hdefault as (Hok & Hdata); [left; apply lookup_empty|].
  destruct Hdefault' as (Hok' & _).
  { right. right. eexists. split_and!; [apply lookup_singleton_eq | done | done]. }
  by split_and!.
Defined.

Lemma get_setting_after_set_setting_witness :
  outcome (get_setting "compact_mode"
             (after (set_setting "compact_mode" (VBool true) Example.fresh))) =
    Ok (VBool true) ∧
  outcome (get_setting "theme" Example.fresh) = Ok VNone.
Proof.
  destruct (get_setting_after_set_setting Example.fresh default_settings
              "compact_mode" (VBool true) fresh_settings) as (Hread & _).
  destruct (get_setting_after_set_setting Example.fresh default_settings
              "theme" (VBool true) fresh_settings) as (_ & _ & _ & _ & Hnone).
  split; [exact Hread | by apply Hnone].
Defined.

Lemma get_item_after_add_item_witness :
  outcome (get_item "phone"
             (after (add_item "phone" "Gadgets" 2 (Float "0.3") Example.fresh))) = Ok None ∧
  outcome (get_item "Phone"
             (after (add_item "phone" "Gadgets" 2 (Float "0.3") Example.fresh))) =
    Ok (Some (Item "Phone" "Gadgets" 2 (Float "0.3"))) ∧
  outcome (get_item "Pen"
             (after (add_item "Pen" "Essentials" 1 (Float "0.01") Example.fresh))) =
    Ok (Some (Item "Pen" "Essentials" 1 (Float "0.01"))).
Proof.
  destruct (get_item_after_add_item Example.fresh default_inventory
              "phone" "Gadgets" 2 (Float "0.3") fresh_inventory) as (_ & _ & Hcase).
  destruct (get_item_after_add_item Example.fresh default_inventory
              "Pen" "Essentials" 1 (Float "0.01") fresh_inventory) as (Hnew & _).
  destruct (Hcase 0%nat (Item "Phone" "Electronics" 1 (Float "0.2")))
    as (H1 & H2); [reflexivity | done | apply default_names_unique_nocase |].
  split_and!; [exact H1 | exact H2 |].
  apply Hnew. by apply (default_inventory_names (λ n, PyStr.lower n ≠ PyStr.lower "Pen")).
Defined.

Lemma remove_item_takes_out_the_first_match_witness :
  doc_inventory (_data (after (remove_item "Wallet" Example.fresh))) =
    Some [ Item "Phone" "Electronics" 1 (Float "0.2");
           Item "Keys" "Essentials" 1 (Float "0.05") ] ∧
  outcome (get_item "Wallet" (after (remove_item "Wallet" Example.fresh))) = Ok None ∧
  outcome (get_item "Keys" (after (remove_item "Wallet" Example.fresh))) =
    Ok (Some (Item "Keys" "Essentials" 1 (Float "0.05"))).
Proof.
  destruct (remove_item_takes_out_the_first_match Example.fresh default_inventory
              "Wallet" 1%nat (Item "Wallet" "Essentials" 1 (Float "0.1"))
              fresh_inventory eq_refl)
    as (Hinv & _ & _ & _ & _ & Hother & Hgone).
  split_and!.
  - exact Hinv.
  - apply Hgone, default_names_unique.
  - rewrite Hother by done. by rewrite (get_item_outcome _ _ _ fresh_inventory).
Defined.

Lemma update_item_replaces_the_first_match_witness :
  doc_inventory
    (_data (after (update_item "Wallet" "Purse" "Bags" 2 (Float "0.3") Example.fresh))) =
    Some [ Item "Phone" "Electronics" 1 (Float "0.2");
           Item "Purse" "Bags" 2 (Float "0.3");
           Item "Keys" "Essentials" 1 (Float "0.05") ] ∧
  outcome (get_item "Purse"
             (after (update_item "Wallet" "Purse" "Bags" 2 (Float "0.3") Example.fresh))) =
    Ok (Some (Item "Purse" "Bags" 2 (Float "0.3"))) ∧
  outcome (get_item "Wallet"
             (after (update_item "Wallet" "Purse" "Bags" 2 (Float "0.3") Example.fresh))) =
    Ok None.
Proof.
  destruct (update_item_replaces_the_first_match Example.fresh default_inventory
              "Wallet" "Purse" "Bags" 2 (Float "0.3") 1%nat
              (Item "Wallet" "Essentials" 1 (Float "0.1")) fresh_inventory eq_refl)
    as (Hinv & _ & _ & _ & Hnew & Hold).
  split_and!.
  - exact Hinv.
  - apply Hnew. intros j it' Hj _.
    apply (default_inventory_names (λ n, n ≠ "Purse")); [done..|].
    by eapply list_elem_of_lookup_2.
  - apply Hold; [apply default_names_unique | done].
Defined.

Lemma update_item_keeps_names_unique_when_the_name_is_free_witness :
  ∃ l',
    doc_inventory
      (_data (after (update_item "Wallet" "WALLET" "Bags" 2 (Float "0.3") Example.fresh))) =
      Some l' ∧
    names_unique_nocase l'.
Proof.
  apply (update_item_keeps_names_unique_when_the_name_is_free
           Example.fresh default_inventory "Wallet" "WALLET" "Bags" 2 (Float "0.3")
           fresh_inventory default_names_unique_nocase).
  left. reflexivity.
Defined.

Lemma dashboard_previews_the_first_three_items_witness :
  ∃ lines,
    DashboardScreen_inventory_items
      (after (add_item "Pen" "Essentials" 1 (Float "0.01") Example.fresh)) =
      (Ok lines, after (add_item "Pen" "Essentials" 1 (Float "0.01") Example.fresh)) ∧
    length lines = 3%nat ∧
    lines !! 0%nat = Some "• Phone x1".
Proof.
  pose proof (add_item_inventory Example.fresh default_inventory
                "Pen" "Essentials" 1 (Float "0.01") fresh_inventory) as E.
  change (list_find (same_name_nocase "Pen") default_inventory) with
    (@None (nat * item)) in E.
  destruct (dashboard_previews_the_first_three_items
              (after (add_item "Pen" "Essentials" 1 (Float "0.01") Example.fresh)))
    as (lines & Hrun & _ & _ & Hshown).
  exists lines. split; [exact Hrun|].
  destruct (Hshown _ E) as (Hlen & Hline); [done|].
  split; [by rewrite Hlen|].
  rewrite (Hline 0%nat (Item "Phone" "Electronics" 1 (Float "0.2"))); [done | lia | done].
Defined.

Lemma inventory_rows_are_the_items_witness :
  ∃ rows,
    InventoryScreen_inventory_items Example.fresh = (Ok rows, Example.fresh) ∧
    rows !! 1%nat = Some "Wallet [Essentials] x1" ∧
    InventoryScreen_selected_item_name (Some 1) Example.fresh =
      (Ok (Some "Wallet"), Example.fresh) ∧
    InventoryScreen_selected_item_name (Some 3) Example.fresh = (Ok None, Example.fresh).
Proof.
  destruct (inventory_rows_are_the_items Example.fresh)
    as (rows & Hrun & _ & _ & Hrow & Hout).
  exists rows. split; [exact Hrun|].
  destruct (Hrow 1%nat (Item "Wallet" "Essentials" 1 (Float "0.1"))) as (H1 & H2).
  { by rewrite fresh_inventory. }
  split_and!; [exact H1 | exact H2 |].
  apply Hout. rewrite fresh_inventory. simpl. lia.
Defined.

Lemma inventory_actions_open_screens_on_present_items_witness :
  ∃ calls,
    InventoryScreen_action_edit_item (Some 1) Example.fresh = (Ok calls, Example.fresh) ∧
    (calls = [] ∨ ∃ s, calls = [push_screen s] ∧ compose s Example.fresh = (Ok tt, Example.fresh)).
Proof.
  destruct (inventory_actions_open_screens_on_present_items Example.fresh (Some 1%Z)
              (InventoryScreen_action_edit_item (Some 1%Z)))
    as (calls & Hrun & Hcalls & _).
  - right. left. reflexivity.
  - exists calls. by split.
Defined.

Lemma stat_buttons_change_their_stat_by_five_witness :
  outcome (get_stat "energy"
             (after (StatsScreen_on_button_pressed (Some "energy_inc") Example.fresh))) =
    Ok 85%Z ∧
  outcome (get_stat "blood_sugar"
             (after (StatsScreen_on_button_pressed (Some "blood_sugar_dec") Example.fresh))) =
    Ok 0%Z ∧
  StatsScreen_on_button_pressed (Some "refresh") Example.fresh = (Ok [], Example.fresh).
Proof.
  destruct (stat_buttons_change_their_stat_by_five Example.fresh "energy")
    as (_ & _ & _ & _ & Henergy & Hnone & _).
  destruct (stat_buttons_change_their_stat_by_five Example.fresh "blood_sugar")
    as (_ & _ & _ & _ & Hsugar & _).
  destruct (Henergy default_stats fresh_stats) as (Hinc & _).
  destruct (Hsugar default_stats fresh_stats) as (_ & Hdec).
  split_and!.
  - exact Hinc.
  - exact Hdec.
  - by apply Hnone.
Defined.

Lemma editor_rejects_a_blank_name_and_fills_in_the_rest_witness :
  ItemEditorModal_save_item (B := ExampleUI.B) None "   " "Tools" "2" "0.1" Example.fresh =
    (Ok [], Example.fresh) ∧
  doc_inventory
    (_data (after (ItemEditorModal_save_item (B := ExampleUI.B) None
                     " Pen " "  " "two" "light" Example.fresh))) =
    Some [ Item "Phone" "Electronics" 1 (Float "0.2");
           Item "Wallet" "Essentials" 1 (Float "0.1");
           Item "Keys" "Essentials" 1 (Float "0.05");
           Item "Pen" "Uncategorized" 1 (Float "0.0") ].
Proof.
  split.
  - by apply (editor_rejects_a_blank_name_and_fills_in_the_rest (B := ExampleUI.B)).
  - destruct (editor_rejects_a_blank_name_and_fills_in_the_rest (B := ExampleUI.B)
                Example.fresh None " Pen " "  " "two" "light") as (_ & Hstore).
    destruct Hstore as (-> & _); [done | done |].
    by rewrite (add_item_inventory _ default_inventory) by apply fresh_inventory.
Defined.

Lemma editor_drops_the_edit_of_a_missing_item_witness :
  ItemEditorModal_save_item (B := ExampleUI.B) (Some "Ghost")
    "Ghost" "Spirits" "1" "0.0" Example.fresh =
  (Ok [dismiss; refresh_inventory], Example.fresh).
Proof.
  apply (editor_drops_the_edit_of_a_missing_item (B := ExampleUI.B)
           Example.fresh default_inventory).
  - apply fresh_inventory.
  - by apply (default_inventory_names (λ n, n ≠ "Ghost")).
  - reflexivity.
  - done.
Defined.

Lemma editor_shows_an_item_and_saves_it_back_witness :
  ItemEditorModal_compose (Some "Wallet") Example.fresh =
    (Ok [VStr "Wallet"; VStr "Essentials"; VStr "1"; VStr "0.1"], Example.fresh) ∧
  doc_inventory
    (_data (after (ItemEditorModal_save_item (B := ExampleUI.B) (Some "Wallet")
                     "Wallet" "Essentials" "1" "0.1" Example.fresh))) =
    Some default_inventory.
Proof.
  apply (editor_shows_an_item_and_saves_it_back (B := ExampleUI.B)
           Example.fresh default_inventory 1%nat
           (Item "Wallet" "Essentials" 1 (Float "0.1")));
    first [apply fresh_inventory | reflexivity].
Defined.

Lemma settings_label_and_store_default_differently_witness :
  outcome (SettingsScreen_compose ExampleUI.unflagged) =
    Ok ["Name: WristComp v1.0"; "Auto-save: OFF"] ∧
  auto_save ExampleUI.unflagged = save ExampleUI.unflagged ∧
  fs (after (set_stat "energy" 50 ExampleUI.unflagged)) !! DATA_FILE ≠ None.
Proof.
  destruct (settings_label_and_store_default_differently ExampleUI.unflagged
              {[ "device_name" := VStr "WristComp v1.0" ]} eq_refl)
    as (_ & _ & Hoff & _).
  destruct Hoff as (_ & Hsave); [done|].
  split_and!.
  - reflexivity.
  - exact Hsave.
  - rewrite (set_stat_run _ default_stats) by done.
    rewrite (auto_save_run _ {[ "device_name" := VStr "WristComp v1.0" ]}) by done.
    assert (auto_save_on {[ "device_name" := VStr "WristComp v1.0" ]} = true) as ->
      by done.
    rewrite save_ok_state by (simpl; by rewrite lookup_empty).
    simpl. by rewrite lookup_insert_eq.
Defined.

Lemma delete_dialog_removes_the_item_or_nothing_witness :
  DeleteItemModal_on_button_pressed "Ghost" (Some "btn_delete") Example.fresh =
    (Ok [dismiss; refresh_inventory], Example.fresh) ∧
  doc_inventory
    (_data (after (DeleteItemModal_on_button_pressed "Keys" (Some "btn_delete")
                     Example.fresh))) =
    Some [ Item "Phone" "Electronics" 1 (Float "0.2");
           Item "Wallet" "Essentials" 1 (Float "0.1") ].
Proof.
  destruct (delete_dialog_removes_the_item_or_nothing Example.fresh default_inventory
              "Ghost" fresh_inventory) as (_ & Hmiss & _).
  destruct (delete_dialog_removes_the_item_or_nothing Example.fresh default_inventory
              "Keys" fresh_inventory) as (_ & _ & Hhit).
  split.
  - apply Hmiss. by apply (default_inventory_names (λ n, n ≠ "Ghost")).
  - by destruct (Hhit 2%nat (Item "Keys" "Essentials" 1 (Float "0.05")) eq_refl)
      as (-> & _).
Defined.

End MoreOnConcreteStores.
